(** * Computationally rational gaze-based interaction

    A shallow embedding of the notebook
    [03-Reinforcement-Learning/034_Gaze_based_Interaction/gaze_based_interaction.ipynb]:
    the cognitive POMDP ([CognitivePOMDP]), the theory of gaze-based
    interaction ([GazeTheory]), the external task ([GazeTask]) and the gym
    environment that combines them ([GazeModel]).

    The program is written once, over an abstract type of numbers
    ([Scalar]), and read twice:
    - over the real numbers [R], the idealised arithmetic in which the
      algebraic properties of the Bayesian update are stated;
    - over IEEE-754 binary64 ([float], the primitive floats), the arithmetic
      the notebook runs on, in which runs can be evaluated and in which a
      division of zero by zero yields a NaN.

    Python objects are records, the attribute that a method assigns is the
    field that the function returns changed, and an attribute that does not
    exist before [reset] is an [option] field.  The global random generator
    of numpy is an explicit state: a tape of standard-normal variates and a
    cursor.  An exception is the [Raise] branch of [result]; what a call that
    raises leaves behind in the objects is not modelled.

    The definitions come first (the program, the runs that drive it, the
    concrete episodes), the theorems after them: those that hold for every
    number type, then the real-number reading, then the binary64 one. *)

From Stdlib Require Import Reals Lra Lia ZArith Floats List Bool Sorted.
From Stdlib Require Import Permutation.
Import ListNotations.

Set Implicit Arguments.

(** ** Numbers *)

Class Scalar (T : Type) := {
  of_Z : Z -> T;
  add : T -> T -> T;
  sub : T -> T -> T;
  mul : T -> T -> T;
  div : T -> T -> T;
  neg : T -> T;
  sqrt : T -> T;
  ltb : T -> T -> bool
}.

Declare Scope num_scope.
Delimit Scope num_scope with num.
Infix "+" := add : num_scope.
Infix "-" := sub : num_scope.
Infix "*" := mul : num_scope.
Infix "/" := div : num_scope.
Notation "- x" := (neg x) : num_scope.
Infix "<?" := ltb : num_scope.

(** The comparison of two reals as a boolean: [x < y] decided. *)
Definition Rltb (x y : R) : bool := if Rlt_dec x y then true else false.

#[export] Instance R_Scalar : Scalar R := {|
  of_Z := IZR; add := Rplus; sub := Rminus; mul := Rmult; div := Rdiv;
  neg := Ropp; sqrt := R_sqrt.sqrt; ltb := Rltb |}.

(** A Python [int] read as a binary64 number (exact for the small
    constants of the notebook). *)
Definition float_of_Z (z : Z) : float :=
  match z with
  | Z0 => 0%float
  | Zpos _ => PrimFloat.of_uint63 (Uint63.of_Z z)
  | Zneg p => PrimFloat.opp (PrimFloat.of_uint63 (Uint63.of_Z (Zpos p)))
  end.

#[export] Instance float_Scalar : Scalar float := {|
  of_Z := float_of_Z; add := PrimFloat.add; sub := PrimFloat.sub;
  mul := PrimFloat.mul; div := PrimFloat.div; neg := PrimFloat.opp;
  sqrt := PrimFloat.sqrt; ltb := PrimFloat.ltb |}.

(** ** Exceptions *)

Inductive exn : Set :=
| ValueError      (* numpy: a negative [scale] given to [normal] *)
| AttributeError. (* an attribute read before [reset] created it *)

Inductive result (A : Type) : Type :=
| Ok (a : A)
| Raise (e : exn).
Arguments Ok {A} a.
Arguments Raise {A} e.

Definition bind {A B} (m : result A) (k : A -> result B) : result B :=
  match m with
  | Ok a => k a
  | Raise e => Raise e
  end.

Notation "x <- e ;; k" := (bind e (fun x => k))
  (at level 61, e at next level, right associativity).
Notation "' pat <- e ;; k" := (bind e (fun x => match x with pat => k end))
  (at level 61, pat pattern, e at next level, right associativity).

Definition attr {A} (o : option A) : result A :=
  match o with
  | Some a => Ok a
  | None => Raise AttributeError
  end.

Section Model.

Context {T : Type} {num : Scalar T}.
Local Open Scope num_scope.

(** Decimal constants of the source: [dec 9 100] is [0.09]. *)
Definition dec (p q : Z) : T := of_Z p / of_Z q.

(** ** Arrays *)

(** [np.array] of shape [(2,)]: a point of the plane. *)
Record point : Type := mkpoint { c0 : T; c1 : T }.

(** [np.array] of shape [(3,)]: an observation. *)
Record array3 : Type := mkarray3 { o0 : T; o1 : T; o2 : T }.

Definition padd (a b : point) : point :=
  {| c0 := c0 a + c0 b; c1 := c1 a + c1 b |}.

(** [w * a] for a number [w] and an array [a] (broadcasting). *)
Definition pscale (w : T) (a : point) : point :=
  {| c0 := w * c0 a; c1 := w * c1 a |}.

(** [np.clip] on a number: [minimum (maximum x lo) hi]. *)
Definition clip (x lo hi : T) : T :=
  if x <? lo then lo else if hi <? x then hi else x.

Definition pclip (a : point) (lo hi : T) : point :=
  {| c0 := clip (c0 a) lo hi; c1 := clip (c1 a) lo hi |}.

(** [x**2], as the product [x * x]. *)
Definition sq (x : T) : T := x * x.

(** Modelled from the spec: [get_distance] of the module [gazetools], which
    the notebook imports and which is not among the sources: "standard
    Euclidean norm of [a - b]". *)
Definition get_distance (a b : point) : T :=
  sqrt (sq (c0 a - c0 b) + sq (c1 a - c1 b)).

(** ** The random generator

    [np.random] is a global generator.  Its state is a tape of the
    standard-normal variates it is going to produce and a cursor on the
    tape; [normal loc scale] returns [loc + scale * z] for the next variate
    [z], and raises [ValueError] when [scale] is negative. *)

Record RandomState : Type := mkrandom { tape : nat -> T; pos : nat }.

Definition standard_normal (g : RandomState) : T * RandomState :=
  (tape g (pos g), {| tape := tape g; pos := S (pos g) |}).

(** [np.random.normal(loc, scale)]. *)
Definition normal (loc scale : T) (g : RandomState)
  : result (T * RandomState) :=
  if scale <? of_Z 0 then Raise ValueError
  else let (z, g1) := standard_normal g in Ok (loc + scale * z, g1).

(** [np.random.normal(loc, scale, shape)] for the shape [(2,)]. *)
Definition normal2 (loc scale : T) (g : RandomState)
  : result (point * RandomState) :=
  if scale <? of_Z 0 then Raise ValueError
  else
    let (z0, g1) := standard_normal g in
    let (z1, g2) := standard_normal g1 in
    Ok ({| c0 := loc + scale * z0; c1 := loc + scale * z1 |}, g2).

(** ** States *)

(** The dictionary [internal_state] of the theory. *)
Record InternalState : Type := mkinternal {
  fixation : point;
  target : point;
  target_std : T;
  width : T;
  action : point
}.

(** The dictionary [external_state] of the task. *)
Record ExternalState : Type := mkexternal {
  ext_fixation : point;
  ext_target : point;
  ext_width : T
}.

(** ** A theory of gaze-based interaction *)

Record GazeTheory : Type := mktheory {
  oculamotor_noise_weight : T;
  stimulus_noise_weight : T;
  step_cost : T;
  internal_state : option InternalState
}.

Definition set_internal_state (th : GazeTheory) (s : InternalState)
  : GazeTheory :=
  {| oculamotor_noise_weight := oculamotor_noise_weight th;
     stimulus_noise_weight := stimulus_noise_weight th;
     step_cost := step_cost th;
     internal_state := Some s |}.

(** [GazeTheory.__init__]: it does not call the initialiser of
    [CognitivePOMDP], so [internal_state] does not exist yet. *)
Definition GazeTheory_init : GazeTheory :=
  {| oculamotor_noise_weight := dec 1 100;
     stimulus_noise_weight := dec 9 100;
     step_cost := of_Z (-1);
     internal_state := None |}.

Definition _get_obs (th : GazeTheory) : result array3 :=
  s <- attr (internal_state th) ;;
  Ok {| o0 := c0 (target s); o1 := c1 (target s); o2 := target_std s |}.

Definition reset_internal_env (th : GazeTheory) (external_state : ExternalState)
  : result (array3 * GazeTheory) :=
  let th1 :=
    set_internal_state th
      {| fixation := {| c0 := of_Z (-1); c1 := of_Z (-1) |};
         target := {| c0 := of_Z 0; c1 := of_Z 0 |};
         target_std := dec 1 10;
         width := ext_width external_state;
         action := {| c0 := of_Z (-1); c1 := of_Z (-1) |} |} in
  obs <- _get_obs th1 ;;
  Ok (obs, th1).

Definition _update_state_with_action (th : GazeTheory) (a : point)
  : result GazeTheory :=
  s <- attr (internal_state th) ;;
  Ok (set_internal_state th
        {| fixation := fixation s; target := target s;
           target_std := target_std s; width := width s; action := a |}).

(** Take an action and add noise. *)
Definition _get_response (th : GazeTheory) (g : RandomState)
  : result (point * RandomState) :=
  s <- attr (internal_state th) ;;
  let move_distance := get_distance (fixation s) (action s) in
  '(ocularmotor_noise, g1) <-
     normal2 (of_Z 0) (oculamotor_noise_weight th * move_distance) g ;;
  let response := padd (action s) ocularmotor_noise in
  let response := pclip response (of_Z (-1)) (of_Z 1) in
  Ok (response, g1).

(** Acuity falls off with eccentricity. *)
Definition _get_stimulus (th : GazeTheory) (external_state : ExternalState)
  (g : RandomState) : result ((point * T) * RandomState) :=
  let eccentricity :=
    get_distance (ext_target external_state) (ext_fixation external_state) in
  let stm_std := stimulus_noise_weight th * eccentricity in
  '(stimulus_noise, g1) <- normal2 (of_Z 0) stm_std g ;;
  let stm := padd (ext_target external_state) stimulus_noise in
  Ok ((stm, stm_std), g1).

(** A Bayes optimal function that integrates stimuli; the belief is the
    prior. *)
Definition bayes_update (stimulus : point) (stimulus_std : T)
  (belief : point) (belief_std : T) : point * T :=
  let z1 := stimulus in let sigma1 := stimulus_std in
  let z2 := belief in let sigma2 := belief_std in
  let w1 := sq sigma2 / (sq sigma1 + sq sigma2) in
  let w2 := sq sigma1 / (sq sigma1 + sq sigma2) in
  let posterior := padd (pscale w1 z1) (pscale w2 z2) in
  let posterior_std :=
    sqrt ((sq sigma1 * sq sigma2) / (sq sigma1 + sq sigma2)) in
  (posterior, posterior_std).

Definition _update_state_with_stimulus (th : GazeTheory) (stimulus : point)
  (stimulus_std : T) : result GazeTheory :=
  s <- attr (internal_state th) ;;
  let (posterior, posterior_std) :=
    bayes_update stimulus stimulus_std (target s) (target_std s) in
  Ok (set_internal_state th
        {| fixation := fixation s; target := posterior;
           target_std := posterior_std; width := width s;
           action := action s |}).

Definition _get_reward (th : GazeTheory) : result T :=
  s <- attr (internal_state th) ;;
  let distance := get_distance (fixation s) (target s) in
  Ok (if distance <? width s / of_Z 2 then of_Z 0 else - distance).

(** ** External environment *)

Record GazeTask : Type := mktask {
  target_width : T;
  target_loc_std : T;
  external_state : option ExternalState
}.

Definition set_external_state (tx : GazeTask) (es : ExternalState) : GazeTask :=
  {| target_width := target_width tx;
     target_loc_std := target_loc_std tx;
     external_state := Some es |}.

Definition GazeTask_init : GazeTask :=
  {| target_width := dec 15 100;
     target_loc_std := dec 3 10;
     external_state := None |}.

(** Choose a new target location and reset to the first fixation
    location. *)
Definition reset_external_env (tx : GazeTask) (g : RandomState)
  : result (GazeTask * RandomState) :=
  '(nx, g1) <- normal (of_Z 0) (target_loc_std tx) g ;;
  let x_target := clip nx (of_Z (-1)) (of_Z 1) in
  '(ny, g2) <- normal (of_Z 0) (target_loc_std tx) g1 ;;
  let y_target := clip ny (of_Z (-1)) (of_Z 1) in
  let fx := {| c0 := of_Z (-1); c1 := of_Z (-1) |} in
  let tg := {| c0 := x_target; c1 := y_target |} in
  Ok (set_external_state tx
        {| ext_fixation := fx; ext_target := tg;
           ext_width := target_width tx |}, g2).

(** The dictionary is changed in place and returned: the state in the
    result is the state the task holds afterwards. *)
Definition external_env (tx : GazeTask) (a : point)
  : result ((ExternalState * bool) * GazeTask) :=
  es <- attr (external_state tx) ;;
  let es1 := {| ext_fixation := a; ext_target := ext_target es;
                ext_width := ext_width es |} in
  let distance := get_distance (ext_fixation es1) (ext_target es1) in
  let done := if distance <? ext_width es1 / of_Z 2 then true else false in
  Ok ((es1, done), set_external_state tx es1).

(** ** A cognitive POMDP *)

(** [CognitivePOMDP.step], with the hooks of [GazeTheory].  The stimulus is
    computed from [ext.external_state], read after [external_env] ran. *)
Definition CognitivePOMDP_step (th : GazeTheory) (ext : GazeTask) (a : point)
  (g : RandomState)
  : result ((array3 * T * bool) * GazeTheory * GazeTask * RandomState) :=
  th1 <- _update_state_with_action th a ;;
  '(response, g1) <- _get_response th1 g ;;
  '((_, done), ext1) <- external_env ext response ;;
  es <- attr (external_state ext1) ;;
  '((stimulus, stimulus_std), g2) <- _get_stimulus th1 es g1 ;;
  th2 <- _update_state_with_stimulus th1 stimulus stimulus_std ;;
  obs <- _get_obs th2 ;;
  reward <- _get_reward th2 ;;
  Ok ((obs, reward, done), th2, ext1, g2).

(** ** Gym environment *)

(** [spaces.Box(low, high, shape=(x,))]. *)
Record Box : Type := mkbox { low : T; high : T; shape : nat }.

Definition default_box (x : nat) : Box :=
  {| low := of_Z (-1); high := of_Z 1; shape := x |}.

Record GazeModel : Type := mkmodel {
  GT : GazeTheory;
  TX : GazeTask;
  action_space : Box;
  observation_space : Box;
  max_steps : Z;
  n_step : option Z
}.

Definition GazeModel_init : GazeModel :=
  {| GT := GazeTheory_init;
     TX := GazeTask_init;
     action_space := default_box 2;
     observation_space := default_box 3;
     max_steps := 500;
     n_step := None |}.

(** The dictionary returned by [get_info]. *)
Record Info : Type := mkinfo {
  info_step : Z;
  info_target_width : T;
  info_target_x : T;
  info_target_y : T;
  info_fixate_x : T;
  info_fixate_y : T
}.

Definition get_info (m : GazeModel) : result Info :=
  n <- attr (n_step m) ;;
  es <- attr (external_state (TX m)) ;;
  Ok {| info_step := n;
        info_target_width := target_width (TX m);
        info_target_x := c0 (ext_target es);
        info_target_y := c1 (ext_target es);
        info_fixate_x := c0 (ext_fixation es);
        info_fixate_y := c1 (ext_fixation es) |}.

Definition GazeModel_reset (m : GazeModel) (g : RandomState)
  : result (array3 * GazeModel * RandomState) :=
  '(tx1, g1) <- reset_external_env (TX m) g ;;
  es <- attr (external_state tx1) ;;
  '(obs, gt1) <- reset_internal_env (GT m) es ;;
  Ok (obs,
      {| GT := gt1; TX := tx1;
         action_space := action_space m;
         observation_space := observation_space m;
         max_steps := max_steps m;
         n_step := Some 0%Z |},
      g1).

Definition GazeModel_step (m : GazeModel) (a : point) (g : RandomState)
  : result ((array3 * T * bool * Info) * GazeModel * RandomState) :=
  '((obs, reward, done), gt1, tx1, g1) <-
     CognitivePOMDP_step (GT m) (TX m) a g ;;
  n <- attr (n_step m) ;;
  let m1 := {| GT := gt1; TX := tx1;
               action_space := action_space m;
               observation_space := observation_space m;
               max_steps := max_steps m;
               n_step := Some (n + 1)%Z |} in
  (* give up if been looking for too long *)
  let done := if (max_steps m1 <? n + 1)%Z then true else done in
  info <- get_info m1 ;;
  Ok ((obs, reward, done, info), m1, g1).

End Model.

(** Outside the section the types name their numbers: [point T]. *)
Arguments point : clear implicits.
Arguments array3 : clear implicits.
Arguments RandomState : clear implicits.
Arguments InternalState : clear implicits.
Arguments ExternalState : clear implicits.
Arguments GazeTheory : clear implicits.
Arguments GazeTask : clear implicits.
Arguments Box : clear implicits.
Arguments GazeModel : clear implicits.
Arguments Info : clear implicits.

(** ** Runs

    The notebook drives the environment from a loop ([model.step] on each
    action in turn).  A run over a list of actions is that loop; it stops at
    the first exception. *)

Section Runs.

Context {T : Type} {num : Scalar T}.
Local Open Scope num_scope.

(** Repeated [GazeTheory.step] on the same theory and task. *)
Fixpoint run_theory (th : GazeTheory T) (ext : GazeTask T)
  (actions : list (point T)) (g : RandomState T)
  : result (list (array3 T * T * bool) * GazeTheory T * GazeTask T
            * RandomState T) :=
  match actions with
  | [] => Ok ([], th, ext, g)
  | a :: rest =>
      '(out, th1, ext1, g1) <- CognitivePOMDP_step th ext a g ;;
      '(outs, th2, ext2, g2) <- run_theory th1 ext1 rest g1 ;;
      Ok (out :: outs, th2, ext2, g2)
  end.

(** Repeated [GazeModel.step]. *)
Fixpoint run_model (m : GazeModel T) (actions : list (point T))
  (g : RandomState T)
  : result (list (array3 T * T * bool * Info T) * GazeModel T
            * RandomState T) :=
  match actions with
  | [] => Ok ([], m, g)
  | a :: rest =>
      '(out, m1, g1) <- GazeModel_step m a g ;;
      '(outs, m2, g2) <- run_model m1 rest g1 ;;
      Ok (out :: outs, m2, g2)
  end.

(** Repeated [_update_state_with_stimulus]; the result lists the value of
    [target_std] after each call. *)
Fixpoint update_many (th : GazeTheory T) (stimuli : list (point T * T))
  : result (list T * GazeTheory T) :=
  match stimuli with
  | [] => Ok ([], th)
  | (stimulus, stimulus_std) :: rest =>
      th1 <- _update_state_with_stimulus th stimulus stimulus_std ;;
      s1 <- attr (internal_state th1) ;;
      '(stds, th2) <- update_many th1 rest ;;
      Ok (target_std s1 :: stds, th2)
  end.

(** The starting corner of every episode. *)
Definition corner : point T := {| c0 := of_Z (-1); c1 := of_Z (-1) |}.

(** The reward of [_get_reward] as a function of what it reads. *)
Definition reward_of (fix_ belief : point T) (w : T) : T :=
  if get_distance fix_ belief <? w / of_Z 2 then of_Z 0
  else - get_distance fix_ belief.

(** The goal test of [external_env], read off the dictionary that
    [get_info] returns. *)
Definition goal_reached (info : Info T) : bool :=
  get_distance {| c0 := info_fixate_x info; c1 := info_fixate_y info |}
               {| c0 := info_target_x info; c1 := info_target_y info |}
  <? info_target_width info / of_Z 2.

(** The width in the external state is the [target_width] of the task: so
    it is after [reset_external_env], and [external_env] keeps it so. *)
Definition width_synced (tx : GazeTask T) : Prop :=
  exists es : ExternalState T,
    external_state tx = Some es /\ ext_width es = target_width tx.

End Runs.

(** ** Definitions over the reals *)

Section RealDefinitions.

Local Open Scope R_scope.

(** The posterior deviation, squared. *)
Definition posterior_var (s1 s2 : R) : R :=
  (sq s1 * sq s2) / (sq s1 + sq s2).

(** A list of deviations that never goes up. *)
Definition non_increasing (l : list R) : Prop :=
  Sorted (fun x y : R => y <= x) l.

End RealDefinitions.

(** ** Concrete episodes in binary64 *)

Module FloatDemo.

Local Open Scope float_scope.

(** A generator that produces the given variates, then zeros. *)
Definition tape_of (draws : list float) : nat -> float :=
  fun n => nth n draws 0.

Definition rng_of (draws : list float) : RandomState float :=
  {| tape := tape_of draws; pos := 0 |}.

(** An ordinary episode: the target is drawn at [(0.3, -0.15)]. *)
Definition draws_inside : list float :=
  [1; -0.5; 0.5; -0.5; 1.5; 0.5; 0.25; -1; -0.75; 0.5; 2; -1.25].

Definition es_inside : ExternalState float :=
  {| ext_fixation := corner;
     ext_target := {| c0 := dec 3 10; c1 := - dec 15 100 |};
     ext_width := dec 15 100 |}.

Definition task_inside : GazeTask float :=
  set_external_state GazeTask_init es_inside.

(** The theory as [reset_internal_env] leaves it in that episode. *)
Definition theory_ready : GazeTheory float :=
  set_internal_state GazeTheory_init
    {| fixation := corner;
       target := {| c0 := 0; c1 := 0 |};
       target_std := dec 1 10;
       width := dec 15 100;
       action := corner |}.

Definition action_far : point float := {| c0 := -0.5; c1 := 0.75 |}.

(** An episode whose target is drawn beyond the right edge and clipped to
    [(1, 0.075)]; the action looks next to it. *)
Definition draws_edge : list float := [3.5; 0.25; 0.5; -0.5; 1.5; 0.5].

Definition action_edge : point float := {| c0 := dec 9 10; c1 := dec 1 10 |}.

(** An episode whose target is drawn beyond the corner and clipped to
    [(-1, -1)], where every episode starts. *)
Definition draws_corner : list float :=
  [-3.5; -4; 0.5; -0.5; 1.5; 0.5; 0.25; -1; -0.75; 0.5].

(** The scenario with the noise weights forced to zero and the target fixed
    at [(0.3, -0.2)]. *)
Definition theory_noiseless : GazeTheory float :=
  {| oculamotor_noise_weight := 0;
     stimulus_noise_weight := 0;
     step_cost := -1;
     internal_state := None |}.

Definition es_fixed : ExternalState float :=
  {| ext_fixation := corner;
     ext_target := {| c0 := dec 3 10; c1 := - dec 2 10 |};
     ext_width := dec 15 100 |}.

Definition task_fixed : GazeTask float :=
  set_external_state GazeTask_init es_fixed.

Definition rng_ones (p : nat) : RandomState float :=
  {| tape := fun _ => 1; pos := p |}.

(** The theory of that scenario after [reset_internal_env], after a first
    step on the target, and after a second one. *)
Definition theory_noiseless_ready : GazeTheory float :=
  set_internal_state theory_noiseless
    {| fixation := corner;
       target := {| c0 := 0; c1 := 0 |};
       target_std := dec 1 10;
       width := dec 15 100;
       action := corner |}.

Definition theory_exact : GazeTheory float :=
  set_internal_state theory_noiseless
    {| fixation := corner;
       target := ext_target es_fixed;
       target_std := 0;
       width := dec 15 100;
       action := ext_target es_fixed |}.

Definition theory_nan : GazeTheory float :=
  set_internal_state theory_noiseless
    {| fixation := corner;
       target := {| c0 := nan; c1 := nan |};
       target_std := nan;
       width := dec 15 100;
       action := ext_target es_fixed |}.

(** The task of that scenario once the gaze is on the target. *)
Definition task_on_target : GazeTask float :=
  set_external_state GazeTask_init
    {| ext_fixation := ext_target es_fixed;
       ext_target := ext_target es_fixed;
       ext_width := dec 15 100 |}.

(** What the first step on the target returns, and what every later one
    does. *)
Definition out_first : array3 float * float * bool :=
  ({| o0 := dec 3 10; o1 := - dec 2 10; o2 := 0 |},
   - get_distance corner (ext_target es_fixed), true).

Definition out_nan : array3 float * float * bool :=
  ({| o0 := nan; o1 := nan; o2 := nan |}, nan, true).

End FloatDemo.

(** ** Concrete inputs over the reals *)

Module RealDemo.

Local Open Scope R_scope.

Definition stimulus_a : point R := {| c0 := 3 / 10; c1 := - (2 / 10) |}.

Definition belief_a : point R := {| c0 := 0; c1 := 0 |}.

Definition real_theory_noiseless : GazeTheory R :=
  {| oculamotor_noise_weight := 0;
     stimulus_noise_weight := 0;
     step_cost := -1;
     internal_state := None |}.

Definition real_state_ready : InternalState R :=
  {| fixation := corner;
     target := {| c0 := 0; c1 := 0 |};
     target_std := dec 1 10;
     width := dec 15 100;
     action := corner |}.

Definition real_theory_ready : GazeTheory R :=
  set_internal_state GazeTheory_init real_state_ready.

Definition real_es_fixed : ExternalState R :=
  {| ext_fixation := corner;
     ext_target := stimulus_a;
     ext_width := dec 15 100 |}.

Definition real_task_fixed : GazeTask R := set_external_state GazeTask_init real_es_fixed.

Definition rng_zeros : RandomState R := {| tape := fun _ => 0; pos := 0 |}.

End RealDemo.

(** ** The test loop of the notebook

    The cell "Test the model" resets a fresh model and steps it with sampled
    actions until [done].  The actions come from [action_space.sample()],
    which has a generator of its own: they are an input, the [i]-th sampled
    action being [sample i].  The loop is given fuel; [None] says the fuel
    ran out before [done]. *)

Section Loop.

Context {T : Type} {num : Scalar T}.

(** [while not done: obs, reward, done, info = model.step(...); i+=1]. *)
Fixpoint step_until_done (fuel : nat) (m : GazeModel T)
  (sample : nat -> point T) (i : nat) (g : RandomState T)
  : result (option nat * GazeModel T * RandomState T) :=
  match fuel with
  | O => Ok (None, m, g)
  | S fuel1 =>
      '((_, _, done, _), m1, g1) <- GazeModel_step m (sample i) g ;;
      if done then Ok (Some (S i), m1, g1)
      else step_until_done fuel1 m1 sample (S i) g1
  end.

(** [model = GazeModel(); model.reset(); i=0; done=False; while ...]:
    the result is the [i] that the cell prints. *)
Definition test_the_model (fuel : nat) (sample : nat -> point T)
  (g : RandomState T) : result (option nat * GazeModel T * RandomState T) :=
  '(_, m0, g0) <- GazeModel_reset GazeModel_init g ;;
  step_until_done fuel m0 sample 0 g0.

(** Two models configured alike: the same parameters of the theory and of
    the task, the same spaces and the same cap; the states may differ. *)
Definition same_parameters (m1 m2 : GazeModel T) : Prop :=
  oculamotor_noise_weight (GT m1) = oculamotor_noise_weight (GT m2) /\
  stimulus_noise_weight (GT m1) = stimulus_noise_weight (GT m2) /\
  step_cost (GT m1) = step_cost (GT m2) /\
  target_width (TX m1) = target_width (TX m2) /\
  target_loc_std (TX m1) = target_loc_std (TX m2) /\
  action_space m1 = action_space m2 /\
  observation_space m1 = observation_space m2 /\
  max_steps m1 = max_steps m2.

(** The internal state as [_update_state_with_stimulus] leaves it. *)
Definition fused (s : InternalState T) (stimulus : point T) (stimulus_std : T)
  : InternalState T :=
  {| fixation := fixation s;
     target := fst (bayes_update stimulus stimulus_std (target s) (target_std s));
     target_std :=
       snd (bayes_update stimulus stimulus_std (target s) (target_std s));
     width := width s;
     action := action s |}.

End Loop.

(** The square [[-1,1]^2] in which the task lives. *)
Definition in_box (p : point R) : Prop :=
  (-1 <= c0 p <= 1)%R /\ (-1 <= c1 p <= 1)%R.


(** A list of deviations that goes down at every step. *)
Definition decreasing (l : list R) : Prop :=
  Sorted (fun x y : R => (y < x)%R) l.

(** The deviation that a result of [GazeModel.step] reports, and whether
    its [info] shows the gaze exactly on the target. *)
Definition reported_std (out : array3 R * R * bool * Info R) : R :=
  let '(obs, _, _, _) := out in o2 obs.

Definition gaze_off_target (out : array3 R * R * bool * Info R) : Prop :=
  let '(_, _, _, info) := out in
  {| c0 := info_target_x info; c1 := info_target_y info |}
  <> {| c0 := info_fixate_x info; c1 := info_fixate_y info |}.

(** ** More concrete inputs *)

Module ExtraDemo.


(** Three actions of an episode, the second one outside the box. *)
Definition actions_R : list (point R) :=
  [RealDemo.stimulus_a; {| c0 := 2%R; c1 := (-3)%R |}; corner].

Definition actions_float : list (point float) :=
  [FloatDemo.action_far; {| c0 := 2%float; c1 := (-3)%float |};
   FloatDemo.action_edge].

End ExtraDemo.

(** ** Inversion of successful computations *)

(** [monad_inv H] splits a hypothesis [H : c = Ok v] along the calls of
    [c], leaving one equation per call. *)
Ltac monad_inv H :=
  lazymatch type of H with
  | Ok _ = Ok _ => injection H as H; subst
  | Raise _ = Ok _ => discriminate H
  | bind (attr ?o) _ = Ok _ =>
      let E := fresh "E" in
      destruct o eqn:E; [cbn [bind attr] in H; monad_inv H | discriminate H]
  | bind ?m _ = Ok _ =>
      let E := fresh "E" in
      destruct m eqn:E; [cbn [bind] in H; monad_inv H | discriminate H]
  | (let (_, _) := ?p in _) = Ok _ => destruct p; monad_inv H
  | (if ?b then _ else _) = Ok _ =>
      let E := fresh "E" in destruct b eqn:E; monad_inv H
  | _ => idtac
  end.

(** ** The frame of each method *)

Section Frame.

Context {T : Type} {num : Scalar T}.
Local Open Scope num_scope.

Lemma _update_state_with_action_Ok (th th1 : GazeTheory T) (a : point T) :
  _update_state_with_action th a = Ok th1 ->
  exists s : InternalState T,
    internal_state th = Some s /\
    th1 = set_internal_state th
            {| fixation := fixation s; target := target s;
               target_std := target_std s; width := width s; action := a |}.
Proof.
  unfold _update_state_with_action. intros H. monad_inv H. eauto.
Qed.

Lemma _update_state_with_stimulus_Ok (th th1 : GazeTheory T) (stm : point T)
  (stm_std : T) :
  _update_state_with_stimulus th stm stm_std = Ok th1 ->
  exists s : InternalState T,
    internal_state th = Some s /\
    th1 = set_internal_state th
            {| fixation := fixation s;
               target := fst (bayes_update stm stm_std (target s) (target_std s));
               target_std :=
                 snd (bayes_update stm stm_std (target s) (target_std s));
               width := width s; action := action s |}.
Proof.
  unfold _update_state_with_stimulus. intros H.
  destruct (internal_state th) as [s|]; [cbn [bind attr] in H | discriminate].
  exists s. split; [reflexivity|].
  destruct (bayes_update stm stm_std (target s) (target_std s)) as [p t].
  injection H as <-. reflexivity.
Qed.

(** [bayes_update], its [let]s unfolded: the same formula for every number
    type. *)
Lemma bayes_update_formula (z1 z2 : point T) (sigma1 sigma2 : T) :
  bayes_update z1 sigma1 z2 sigma2
  = ({| c0 := sq sigma2 / (sq sigma1 + sq sigma2) * c0 z1
              + sq sigma1 / (sq sigma1 + sq sigma2) * c0 z2;
        c1 := sq sigma2 / (sq sigma1 + sq sigma2) * c1 z1
              + sq sigma1 / (sq sigma1 + sq sigma2) * c1 z2 |},
     sqrt ((sq sigma1 * sq sigma2) / (sq sigma1 + sq sigma2))).
Proof. reflexivity. Qed.

Lemma _update_state_with_action_total (th : GazeTheory T)
  (s : InternalState T) (a : point T) :
  internal_state th = Some s ->
  _update_state_with_action th a
  = Ok (set_internal_state th
          {| fixation := fixation s; target := target s;
             target_std := target_std s; width := width s; action := a |}).
Proof.
  intros Hs. unfold _update_state_with_action. rewrite Hs. reflexivity.
Qed.

Lemma _update_state_with_stimulus_total (th : GazeTheory T)
  (s : InternalState T) (stm : point T) (stm_std : T) :
  internal_state th = Some s ->
  _update_state_with_stimulus th stm stm_std
  = Ok (set_internal_state th
          {| fixation := fixation s;
             target := fst (bayes_update stm stm_std (target s) (target_std s));
             target_std :=
               snd (bayes_update stm stm_std (target s) (target_std s));
             width := width s; action := action s |}).
Proof.
  intros Hs. unfold _update_state_with_stimulus. rewrite Hs. cbn [bind attr].
  destruct (bayes_update stm stm_std (target s) (target_std s)); reflexivity.
Qed.

Lemma normal2_Ok (loc scale : T) (g g1 : RandomState T) (v : point T) :
  normal2 loc scale g = Ok (v, g1) ->
  (scale <? of_Z 0) = false /\
  v = {| c0 := loc + scale * tape g (pos g);
         c1 := loc + scale * tape g (S (pos g)) |} /\
  g1 = {| tape := tape g; pos := S (S (pos g)) |}.
Proof.
  unfold normal2, standard_normal. intros H.
  destruct (scale <? of_Z 0); [discriminate|].
  injection H as <- <-. auto.
Qed.

Lemma _get_stimulus_Ok (th : GazeTheory T) (es : ExternalState T)
  (g g1 : RandomState T) (stm : point T) (stm_std : T) :
  _get_stimulus th es g = Ok ((stm, stm_std), g1) ->
  stm_std = stimulus_noise_weight th
            * get_distance (ext_target es) (ext_fixation es) /\
  stm = padd (ext_target es)
          {| c0 := of_Z 0 + stm_std * tape g (pos g);
             c1 := of_Z 0 + stm_std * tape g (S (pos g)) |} /\
  g1 = {| tape := tape g; pos := S (S (pos g)) |}.
Proof.
  unfold _get_stimulus. intros H. monad_inv H.
  match goal with E : normal2 _ _ _ = Ok _ |- _ =>
    apply normal2_Ok in E as (_ & -> & ->) end.
  auto.
Qed.

Lemma external_env_Ok (tx tx1 : GazeTask T) (a : point T) (es1 : ExternalState T)
  (done : bool) :
  external_env tx a = Ok ((es1, done), tx1) ->
  exists es : ExternalState T,
    external_state tx = Some es /\
    es1 = {| ext_fixation := a; ext_target := ext_target es;
             ext_width := ext_width es |} /\
    done = (get_distance a (ext_target es) <? ext_width es / of_Z 2) /\
    tx1 = set_external_state tx es1.
Proof.
  unfold external_env. intros H. monad_inv H. cbn.
  exists e. repeat split. destruct (_ <? _); reflexivity.
Qed.

End Frame.

Section Step.

Context {T : Type} {num : Scalar T}.
Local Open Scope num_scope.

(** C7: for every action, [external_env] on a task that has been reset
    returns; the fixation of the external state is then exactly the action,
    the target and the width are the ones before the call, [done] is the
    truth value of [distance(fixation, target) < width/2] on the state just
    updated, the state returned is the state the task now holds, and nothing
    else of the task has changed. *)
Theorem external_env_sets_fixation_and_tests_goal :
  forall (tx : GazeTask T) (es : ExternalState T) (a : point T),
    external_state tx = Some es ->
    exists (es1 : ExternalState T) (done : bool) (tx1 : GazeTask T),
      external_env tx a = Ok ((es1, done), tx1) /\
      external_state tx1 = Some es1 /\
      ext_fixation es1 = a /\
      ext_target es1 = ext_target es /\
      ext_width es1 = ext_width es /\
      done = (get_distance (ext_fixation es1) (ext_target es1)
              <? ext_width es1 / of_Z 2) /\
      target_width tx1 = target_width tx /\
      target_loc_std tx1 = target_loc_std tx.
Proof.
  intros tx es a Hes.
  unfold external_env. rewrite Hes. cbn.
  do 3 eexists. split; [reflexivity|]. cbn.
  repeat split. destruct (_ <? _); reflexivity.
Qed.

(** One successful step, call by call. *)
Lemma CognitivePOMDP_step_Ok (th : GazeTheory T) (ext : GazeTask T)
  (a : point T) (g : RandomState T) (obs : array3 T) (reward : T)
  (done : bool) (th' : GazeTheory T) (ext' : GazeTask T) (g' : RandomState T) :
  CognitivePOMDP_step th ext a g = Ok ((obs, reward, done), th', ext', g') ->
  exists (th1 : GazeTheory T) (response : point T) (g1 : RandomState T)
         (es' : ExternalState T) (stimulus : point T) (stimulus_std : T),
    _update_state_with_action th a = Ok th1 /\
    _get_response th1 g = Ok (response, g1) /\
    external_env ext response = Ok ((es', done), ext') /\
    external_state ext' = Some es' /\
    _get_stimulus th1 es' g1 = Ok ((stimulus, stimulus_std), g') /\
    _update_state_with_stimulus th1 stimulus stimulus_std = Ok th' /\
    _get_obs th' = Ok obs /\
    _get_reward th' = Ok reward.
Proof.
  intros H. unfold CognitivePOMDP_step in H. monad_inv H.
  match goal with
  | E1 : external_env _ _ = Ok _, E2 : external_state ext' = Some _ |- _ =>
      pose proof (external_env_Ok _ _ E1) as (es & _ & _ & _ & Hext);
      rewrite Hext in E2; cbn in E2; injection E2 as <-
  end.
  do 6 eexists. repeat split; eauto.
  subst ext'. reflexivity.
Qed.

(** C1: in a step that returns, the standard deviation of the stimulus is
    [stimulus_noise_weight] times the distance between the external target
    and the external fixation that [external_env] wrote in this same step
    (the motor response), and the stimulus is the external target plus the
    noise of that deviation, with no clipping; this stimulus is the one the
    belief is updated with. *)
Theorem step_stimulus_uses_post_movement_fixation :
  forall (th : GazeTheory T) (ext : GazeTask T) (a : point T) (g : RandomState T)
         (obs : array3 T) (reward : T) (done : bool)
         (th' : GazeTheory T) (ext' : GazeTask T) (g' : RandomState T),
    CognitivePOMDP_step th ext a g = Ok ((obs, reward, done), th', ext', g') ->
    exists (th1 : GazeTheory T) (response : point T) (g1 : RandomState T)
           (es' : ExternalState T) (stimulus : point T) (stimulus_std : T),
      _update_state_with_action th a = Ok th1 /\
      _get_response th1 g = Ok (response, g1) /\
      external_env ext response = Ok ((es', done), ext') /\
      external_state ext' = Some es' /\
      ext_fixation es' = response /\
      stimulus_std
      = stimulus_noise_weight th * get_distance (ext_target es') response /\
      stimulus
      = padd (ext_target es')
          {| c0 := of_Z 0 + stimulus_std * tape g1 (pos g1);
             c1 := of_Z 0 + stimulus_std * tape g1 (S (pos g1)) |} /\
      _get_stimulus th1 es' g1 = Ok ((stimulus, stimulus_std), g') /\
      _update_state_with_stimulus th1 stimulus stimulus_std = Ok th'.
Proof.
  intros th ext a g obs reward done th' ext' g' H.
  apply CognitivePOMDP_step_Ok in H
    as (th1 & response & g1 & es' & stm & stm_std
        & Hact & Hresp & Henv & Hes' & Hstm & Hupd & _ & _).
  pose proof (external_env_Ok _ _ Henv) as (es & _ & Hes1 & _ & _).
  pose proof (_get_stimulus_Ok _ _ _ Hstm) as (Hstd & Hval & _).
  pose proof (_update_state_with_action_Ok _ _ Hact) as (s & _ & Hth1).
  assert (Hfix : ext_fixation es' = response) by (subst es'; reflexivity).
  assert (Hw : stimulus_noise_weight th1 = stimulus_noise_weight th)
    by (subst th1; reflexivity).
  rewrite Hfix, Hw in Hstd.
  exists th1, response, g1, es', stm, stm_std.
  repeat split; auto.
Qed.

(** What a successful step leaves of the internal state, and the reward it
    returns. *)
Lemma CognitivePOMDP_step_internal (th : GazeTheory T) (ext : GazeTask T)
  (a : point T) (g : RandomState T) (obs : array3 T) (reward : T)
  (done : bool) (th' : GazeTheory T) (ext' : GazeTask T) (g' : RandomState T) :
  CognitivePOMDP_step th ext a g = Ok ((obs, reward, done), th', ext', g') ->
  exists (s s' : InternalState T) (stimulus : point T) (stimulus_std : T),
    internal_state th = Some s /\
    internal_state th' = Some s' /\
    fixation s' = fixation s /\
    width s' = width s /\
    action s' = a /\
    (target s', target_std s')
    = bayes_update stimulus stimulus_std (target s) (target_std s) /\
    obs = {| o0 := c0 (target s'); o1 := c1 (target s');
             o2 := target_std s' |} /\
    reward = reward_of (fixation s') (target s') (width s') /\
    oculamotor_noise_weight th' = oculamotor_noise_weight th /\
    stimulus_noise_weight th' = stimulus_noise_weight th.
Proof.
  intros H.
  apply CognitivePOMDP_step_Ok in H
    as (th1 & response & g1 & es' & stm & stm_std
        & Hact & _ & _ & _ & _ & Hupd & Hobs & Hrew).
  apply _update_state_with_action_Ok in Hact as (s & Hs & ->).
  apply _update_state_with_stimulus_Ok in Hupd as (s1 & Hs1 & ->).
  cbn in Hs1. injection Hs1 as <-. cbn in *.
  unfold _get_obs in Hobs. unfold _get_reward in Hrew. cbn in Hobs, Hrew.
  injection Hobs as <-. injection Hrew as <-.
  eexists s, _, stm, stm_std.
  repeat split; try reflexivity; assumption.
Qed.

(** C2: the reward of a step that returns is [0] when the distance between
    the theory's own fixation and its belief about the target, both read
    from the internal state as it is after the Bayesian update of this same
    step, is below half the width, and minus that distance otherwise; the
    belief it reads is the posterior that this step computed and that the
    observation reports.  The external state does not enter. *)
Theorem step_reward_from_updated_belief :
  forall (th : GazeTheory T) (ext : GazeTask T) (a : point T)
         (g : RandomState T) (obs : array3 T) (reward : T) (done : bool)
         (th' : GazeTheory T) (ext' : GazeTask T) (g' : RandomState T),
    CognitivePOMDP_step th ext a g = Ok ((obs, reward, done), th', ext', g') ->
    exists (s s' : InternalState T) (stimulus : point T) (stimulus_std : T),
      internal_state th = Some s /\
      internal_state th' = Some s' /\
      (target s', target_std s')
      = bayes_update stimulus stimulus_std (target s) (target_std s) /\
      target s' = {| c0 := o0 obs; c1 := o1 obs |} /\
      reward
      = (if get_distance (fixation s') (target s') <? width s' / of_Z 2
         then of_Z 0
         else - get_distance (fixation s') (target s')).
Proof.
  intros th ext a g obs reward done th' ext' g' H.
  apply CognitivePOMDP_step_internal in H
    as (s & s' & stm & stm_std & Hs & Hs' & _ & _ & _ & Hb & Hobs & Hr & _).
  exists s, s', stm, stm_std. repeat split; auto.
  subst obs. cbn. destruct (target s'); reflexivity.
Qed.

(** Over a run the fixation and the width of the internal state stay what
    they were, and each reward is measured from that fixation to the belief
    that the observation reports. *)
Lemma run_theory_frame (actions : list (point T)) :
  forall (th : GazeTheory T) (ext : GazeTask T) (g : RandomState T)
         (s : InternalState T)
         (outs : list (array3 T * T * bool))
         (th' : GazeTheory T) (ext' : GazeTask T) (g' : RandomState T),
    internal_state th = Some s ->
    run_theory th ext actions g = Ok (outs, th', ext', g') ->
    (exists s' : InternalState T,
        internal_state th' = Some s' /\
        fixation s' = fixation s /\ width s' = width s) /\
    Forall (fun out : array3 T * T * bool =>
              let '(obs, reward, _) := out in
              reward = reward_of (fixation s)
                         {| c0 := o0 obs; c1 := o1 obs |} (width s))
           outs.
Proof.
  induction actions as [|a rest IH]; intros th ext g s outs th' ext' g' Hs H.
  - cbn in H. injection H as <- <- <- <-. split; [eauto | constructor].
  - cbn [run_theory] in H. monad_inv H.
    match goal with
    | E : CognitivePOMDP_step _ _ _ _ = Ok (?p, _, _, _) |- _ =>
        destruct p as [[obs reward] done]
    end.
    match goal with
    | E : CognitivePOMDP_step _ _ _ _ = Ok _ |- _ =>
        apply CognitivePOMDP_step_internal in E
          as (s0 & s1 & stm & stm_std & Hs0 & Hs1 & Hf & Hw & _ & _
              & Hobs & Hr & _)
    end.
    rewrite Hs in Hs0. injection Hs0 as <-.
    match goal with
    | E : run_theory _ _ _ _ = Ok _ |- _ =>
        destruct (IH _ _ _ _ _ _ _ _ Hs1 E) as ((s' & Hs' & Hf' & Hw') & Hall)
    end.
    split.
    + exists s'. repeat split; congruence.
    + constructor.
      * subst. cbn. rewrite Hf, Hw. destruct (target s1); reflexivity.
      * rewrite <- Hf, <- Hw. exact Hall.
Qed.

(** C3: after [reset_internal_env], whatever steps follow, the fixation of
    the internal state is still the corner [(-1,-1)] that the reset wrote
    and the width is still the one copied at the reset: no step writes the
    motor response back.  So every reward of the run is measured from that
    corner to the belief. *)
Theorem internal_fixation_never_updated :
  forall (th : GazeTheory T) (es : ExternalState T) (obs0 : array3 T)
         (th0 : GazeTheory T) (ext : GazeTask T) (actions : list (point T))
         (g : RandomState T) (outs : list (array3 T * T * bool))
         (th' : GazeTheory T) (ext' : GazeTask T) (g' : RandomState T),
    reset_internal_env th es = Ok (obs0, th0) ->
    run_theory th0 ext actions g = Ok (outs, th', ext', g') ->
    (exists s' : InternalState T,
        internal_state th' = Some s' /\
        fixation s' = {| c0 := of_Z (-1); c1 := of_Z (-1) |} /\
        width s' = ext_width es) /\
    Forall (fun out : array3 T * T * bool =>
              let '(obs, reward, _) := out in
              reward = reward_of {| c0 := of_Z (-1); c1 := of_Z (-1) |}
                         {| c0 := o0 obs; c1 := o1 obs |} (ext_width es))
           outs.
Proof.
  intros th es obs0 th0 ext actions g outs th' ext' g' Hreset Hrun.
  unfold reset_internal_env in Hreset. cbn in Hreset.
  injection Hreset as _ <-.
  eapply run_theory_frame in Hrun; [|reflexivity]. exact Hrun.
Qed.

End Step.

(** ** The gym environment: counting steps *)

Section Adapter.

Context {T : Type} {num : Scalar T}.
Local Open Scope num_scope.

Lemma GazeModel_reset_Ok (m m0 : GazeModel T) (g g0 : RandomState T)
  (obs0 : array3 T) :
  GazeModel_reset m g = Ok (obs0, m0, g0) ->
  n_step m0 = Some 0%Z /\
  max_steps m0 = max_steps m /\
  observation_space m0 = observation_space m /\
  width_synced (TX m0) /\
  obs0 = {| o0 := of_Z 0; o1 := of_Z 0; o2 := dec 1 10 |}.
Proof.
  unfold GazeModel_reset. intros H. monad_inv H. cbn.
  match goal with
  | E : reset_external_env _ _ = Ok _ |- _ =>
      unfold reset_external_env in E; monad_inv E
  end.
  match goal with
  | E : reset_internal_env _ _ = Ok _ |- _ =>
      unfold reset_internal_env in E; cbn in E; injection E as <- <-
  end.
  match goal with
  | E : external_state _ = Some _ |- _ => cbn in E; injection E as <-
  end.
  repeat split; try reflexivity.
  eexists. split; reflexivity.
Qed.

Lemma GazeModel_step_Ok (m m' : GazeModel T) (a : point T)
  (g g' : RandomState T) (obs : array3 T) (reward : T) (done : bool)
  (info : Info T) (n : Z) :
  GazeModel_step m a g = Ok ((obs, reward, done, info), m', g') ->
  n_step m = Some n ->
  width_synced (TX m) ->
  n_step m' = Some (n + 1)%Z /\
  max_steps m' = max_steps m /\
  width_synced (TX m') /\
  info_step info = (n + 1)%Z /\
  done = (goal_reached info || (max_steps m <? n + 1)%Z)%bool.
Proof.
  unfold GazeModel_step. intros H Hn (es & Hes & Hw). monad_inv H.
  rewrite Hn in *.
  match goal with E : Some _ = Some n |- _ => injection E as -> end.
  match goal with
  | E : get_info _ = Ok _ |- _ => unfold get_info in E; cbn in E
  end.
  match goal with
  | E : bind _ _ = Ok info |- _ => monad_inv E
  end.
  match goal with
  | E : CognitivePOMDP_step _ _ _ _ = Ok _ |- _ =>
      apply CognitivePOMDP_step_Ok in E
        as (th1 & response & rs1 & es' & stm & stm_std
            & _ & _ & Henv & Hes' & _)
  end.
  apply external_env_Ok in Henv as (es0 & Hes0 & Hes1 & Hdone & Htx).
  rewrite Hes in Hes0. injection Hes0 as <-.
  match goal with
  | E : external_state ?tx = Some ?e, E' : external_state ?tx = Some _ |- _ =>
      rewrite E in E'; injection E' as <-
  end.
  cbn. repeat split.
  - exists es'. subst. cbn. auto.
  - unfold goal_reached. subst. cbn. rewrite Hw.
    destruct (max_steps m <? n + 1)%Z; [rewrite orb_true_r | rewrite orb_false_r];
      reflexivity.
Qed.

Lemma run_model_counts (actions : list (point T)) :
  forall (m m' : GazeModel T) (g g' : RandomState T)
         (outs : list (array3 T * T * bool * Info T)) (n : Z),
    run_model m actions g = Ok (outs, m', g') ->
    n_step m = Some n ->
    width_synced (TX m) ->
    n_step m' = Some (n + Z.of_nat (length actions))%Z /\
    max_steps m' = max_steps m /\
    forall (k : nat) (obs : array3 T) (reward : T) (done : bool)
           (info : Info T),
      nth_error outs k = Some (obs, reward, done, info) ->
      info_step info = (n + Z.of_nat k + 1)%Z /\
      done = (goal_reached info || (max_steps m <? n + Z.of_nat k + 1)%Z)%bool.
Proof.
  induction actions as [|a rest IH]; intros m m' g g' outs n H Hn Hw.
  - cbn in H. injection H as <- <- <-. cbn. rewrite Z.add_0_r.
    split; [assumption|]. split; [reflexivity|].
    intros [|k] ? ? ? ? Hk; discriminate Hk.
  - cbn [run_model] in H. monad_inv H.
    match goal with
    | E : GazeModel_step _ _ _ = Ok (?p, _, _) |- _ =>
        destruct p as [[[obs1 reward1] done1] info1];
        destruct (GazeModel_step_Ok _ _ _ E Hn Hw)
          as (Hn1 & Hmax1 & Hw1 & Hinfo1 & Hdone1)
    end.
    match goal with
    | E : run_model _ _ _ = Ok _ |- _ =>
        destruct (IH _ _ _ _ _ _ E Hn1 Hw1) as (Hn' & Hmax' & Hall)
    end.
    split; [|split].
    + rewrite Hn'. f_equal. cbn [length]. lia.
    + congruence.
    + intros k obs reward done info Hk. destruct k as [|k]; cbn in Hk.
      * injection Hk as <- <- <- <-. rewrite Hinfo1, Hdone1, !Z.add_0_r.
        split; reflexivity.
      * apply Hall in Hk as (-> & ->). rewrite Hmax1.
        replace (n + 1 + Z.of_nat k + 1)%Z with (n + Z.of_nat (S k) + 1)%Z
          by lia.
        split; reflexivity.
Qed.

(** C8: [reset] sets [n_step] to [0] and each [step] adds exactly one to
    it, so that the call number [k+1] after the reset reports the step
    [k+1].  Its [done] is the goal test of the task or'ed with
    [n_step > max_steps]: while the goal is not reached the first
    [max_steps] calls return [done = False], and from the call number
    [max_steps + 1] on [done] is [True] whatever the distance.  The cap is
    [500] unless configured otherwise and [reset] leaves it alone. *)
Theorem step_cap_truncation :
  forall (m m0 m' : GazeModel T) (g g0 g' : RandomState T) (obs0 : array3 T)
         (actions : list (point T))
         (outs : list (array3 T * T * bool * Info T)),
    GazeModel_reset m g = Ok (obs0, m0, g0) ->
    run_model m0 actions g0 = Ok (outs, m', g') ->
    max_steps (GazeModel_init (T:=T)) = 500%Z /\
    max_steps m0 = max_steps m /\
    n_step m0 = Some 0%Z /\
    n_step m' = Some (Z.of_nat (length actions)) /\
    forall (k : nat) (obs : array3 T) (reward : T) (done : bool)
           (info : Info T),
      nth_error outs k = Some (obs, reward, done, info) ->
      info_step info = (Z.of_nat k + 1)%Z /\
      done = (goal_reached info || (max_steps m <? Z.of_nat k + 1)%Z)%bool /\
      (goal_reached info = false ->
       (Z.of_nat k + 1 <= max_steps m)%Z -> done = false) /\
      ((Z.of_nat k + 1 > max_steps m)%Z -> done = true).
Proof.
  intros m m0 m' g g0 g' obs0 actions outs Hreset Hrun.
  apply GazeModel_reset_Ok in Hreset as (Hn0 & Hmax0 & _ & Hw0 & _).
  destruct (run_model_counts _ _ _ Hrun Hn0 Hw0) as (Hn' & _ & Hall).
  repeat (split; [solve [auto] |]).
  intros k obs reward done info Hk.
  apply Hall in Hk as (Hstep & Hdone). rewrite Hmax0 in Hdone.
  cbn in Hstep, Hdone.
  repeat split; auto.
  - intros Hgoal Hle. rewrite Hdone, Hgoal. cbn. apply Z.ltb_ge. lia.
  - intros Hgt. rewrite Hdone. apply orb_true_iff. right. apply Z.ltb_lt. lia.
Qed.

End Adapter.

(** ** The real-number reading *)

Module RealModel.

Import RealDemo.
Local Open Scope R_scope.

Lemma Rltb_true_iff (x y : R) : Rltb x y = true <-> x < y.
Proof. unfold Rltb. destruct (Rlt_dec x y); split; intros; auto; discriminate. Qed.

Lemma Rltb_false_iff (x y : R) : Rltb x y = false <-> y <= x.
Proof.
  unfold Rltb. destruct (Rlt_dec x y); split; intros; auto; try discriminate; lra.
Qed.

Lemma sq_pos (x : R) : x <> 0 -> 0 < sq x.
Proof. unfold sq. cbn. nra. Qed.

Lemma get_distance_nonneg (a b : point R) : 0 <= get_distance a b.
Proof. unfold get_distance. cbn. apply sqrt_pos. Qed.

Lemma get_distance_same (a : point R) : get_distance a a = 0.
Proof.
  unfold get_distance, sq. cbn.
  replace ((c0 a - c0 a) * (c0 a - c0 a) + (c1 a - c1 a) * (c1 a - c1 a))
    with 0 by ring.
  exact sqrt_0.
Qed.

Lemma clip_inside (x : R) : -1 <= x <= 1 -> clip x (-1) 1 = x.
Proof.
  intros [Hlo Hhi]. unfold clip. cbn.
  destruct (Rltb_false_iff x (-1)) as [_ ->]; [|lra].
  destruct (Rltb_false_iff 1 x) as [_ ->]; [|lra]. reflexivity.
Qed.

Lemma posterior_var_lt_r (s1 s2 : R) :
  0 < s1 -> 0 < s2 -> 0 < posterior_var s1 s2 < sq s2.
Proof.
  intros H1 H2. unfold posterior_var, sq. cbn.
  assert (P1 : 0 < s1 * s1) by nra.
  assert (P2 : 0 < s2 * s2) by nra.
  assert (P4 : 0 < s2 * s2 * (s2 * s2)) by (apply Rmult_lt_0_compat; lra).
  split.
  - apply Rmult_lt_0_compat; [nra|]. apply Rinv_0_lt_compat. lra.
  - apply Rmult_lt_reg_r with (s1 * s1 + s2 * s2); [lra|].
    unfold Rdiv. rewrite Rmult_assoc, Rinv_l by lra. nra.
Qed.

Lemma posterior_std_lt_r (z1 z2 : point R) (s1 s2 : R) :
  0 < s1 -> 0 < s2 ->
  0 < snd (bayes_update z1 s1 z2 s2) < s2.
Proof.
  intros H1 H2.
  destruct (posterior_var_lt_r H1 H2) as [Hgt Hlt].
  change (snd (bayes_update z1 s1 z2 s2))
    with (R_sqrt.sqrt (posterior_var s1 s2)).
  split.
  - apply sqrt_lt_R0. exact Hgt.
  - rewrite <- (sqrt_square s2) at 2 by lra.
    apply sqrt_lt_1_alt. split; [lra | exact Hlt].
Qed.

Lemma bayes_update_comm (z1 z2 : point R) (s1 s2 : R) :
  bayes_update z1 s1 z2 s2 = bayes_update z2 s2 z1 s1.
Proof.
  unfold bayes_update, padd, pscale, sq. cbn.
  rewrite (Rplus_comm (s2 * s2) (s1 * s1)), (Rmult_comm (s2 * s2) (s1 * s1)).
  f_equal. f_equal; apply Rplus_comm.
Qed.


(** C5: when the two deviations are not both zero, [bayes_update] returns,
    coordinate by coordinate, [w1*stimulus + w2*belief] with
    [w1 = belief_std^2 / (stimulus_std^2 + belief_std^2)] and
    [w2 = stimulus_std^2 / (stimulus_std^2 + belief_std^2)], and the
    deviation [sqrt (stimulus_std^2 * belief_std^2
                     / (stimulus_std^2 + belief_std^2))];
    the two weights are then the normalised precisions: they are not
    negative and add up to one. *)
Theorem bayes_update_precision_weighted :
  forall (stimulus belief : point R) (stimulus_std belief_std : R),
    ~ (stimulus_std = 0 /\ belief_std = 0) ->
    let w1 := belief_std ^ 2 / (stimulus_std ^ 2 + belief_std ^ 2) in
    let w2 := stimulus_std ^ 2 / (stimulus_std ^ 2 + belief_std ^ 2) in
    bayes_update stimulus stimulus_std belief belief_std
    = ({| c0 := w1 * c0 stimulus + w2 * c0 belief;
          c1 := w1 * c1 stimulus + w2 * c1 belief |},
       R_sqrt.sqrt ((stimulus_std ^ 2 * belief_std ^ 2)
                    / (stimulus_std ^ 2 + belief_std ^ 2))) /\
    w1 + w2 = 1 /\ 0 <= w1 /\ 0 <= w2.
Proof.
  intros z1 z2 s1 s2 Hnz w1 w2. subst w1 w2.
  assert (Hden : 0 < s1 ^ 2 + s2 ^ 2).
  { pose proof (pow2_ge_0 s1). pose proof (pow2_ge_0 s2).
    destruct (Req_dec s1 0) as [-> | H1].
    - assert (H2 : s2 <> 0) by (intros ->; apply Hnz; split; reflexivity).
      apply sq_pos in H2. unfold sq in H2. cbn in H2. lra.
    - apply sq_pos in H1. unfold sq in H1. cbn in H1. lra. }
  pose proof (pow2_ge_0 s1). pose proof (pow2_ge_0 s2).
  split; [|split; [|split]].
  - rewrite bayes_update_formula. unfold sq. cbn.
    replace (s1 * s1) with (s1 ^ 2) by ring.
    replace (s2 * s2) with (s2 ^ 2) by ring.
    reflexivity.
  - field. lra.
  - apply Rmult_le_pos; [lra|]. left. apply Rinv_0_lt_compat. exact Hden.
  - apply Rmult_le_pos; [lra|]. left. apply Rinv_0_lt_compat. exact Hden.
Qed.

Lemma update_many_sharpens (stimuli : list (point R * R)) :
  forall (th : GazeTheory R) (s : InternalState R),
    internal_state th = Some s ->
    0 < target_std s ->
    Forall (fun p : point R * R => 0 < snd p) stimuli ->
    exists (stds : list R) (th' : GazeTheory R),
      update_many th stimuli = Ok (stds, th') /\
      length stds = length stimuli /\
      non_increasing (target_std s :: stds).
Proof.
  induction stimuli as [|[z sd] rest IH]; intros th s Hs Hpos Hall.
  - exists [], th. repeat split. repeat constructor.
  - inversion Hall as [|? ? Hsd Hrest]; subst. cbn in Hsd.
    cbn [update_many].
    rewrite (_update_state_with_stimulus_total _ _ _ Hs). cbn [bind attr].
    set (th1 := set_internal_state th _).
    set (s1 := {| fixation := fixation s;
                  target := fst (bayes_update z sd (target s) (target_std s));
                  target_std :=
                    snd (bayes_update z sd (target s) (target_std s));
                  width := width s; action := action s |}).
    assert (Hs1 : internal_state th1 = Some s1) by reflexivity.
    destruct (posterior_std_lt_r z (target s) Hsd Hpos) as [Hgt Hlt].
    destruct (IH th1 s1 Hs1 Hgt Hrest) as (stds & th' & Hrun & Hlen & Hsorted).
    cbn [internal_state th1 set_internal_state attr bind].
    fold s1. rewrite Hrun. cbn [bind].
    exists (target_std s1 :: stds), th'. repeat split.
    + cbn. congruence.
    + constructor; [exact Hsorted|]. constructor. apply Rlt_le. exact Hlt.
Qed.

(** C6: for strictly positive deviations, exchanging the stimulus pair
    and the belief pair changes neither the posterior mean nor the
    posterior deviation, and the posterior deviation is strictly below each
    of the two deviations given.  Hence, over repeated calls of
    [_update_state_with_stimulus] with such stimuli, [target_std] never
    goes up. *)
Theorem bayes_update_commutes_and_sharpens :
  forall (z1 z2 : point R) (s1 s2 : R) (th : GazeTheory R)
         (s : InternalState R) (stimuli : list (point R * R)),
    0 < s1 -> 0 < s2 ->
    internal_state th = Some s ->
    0 < target_std s ->
    Forall (fun p : point R * R => 0 < snd p) stimuli ->
    bayes_update z1 s1 z2 s2 = bayes_update z2 s2 z1 s1 /\
    snd (bayes_update z1 s1 z2 s2) < s1 /\
    snd (bayes_update z1 s1 z2 s2) < s2 /\
    exists (stds : list R) (th' : GazeTheory R),
      update_many th stimuli = Ok (stds, th') /\
      length stds = length stimuli /\
      non_increasing (target_std s :: stds).
Proof.
  intros z1 z2 s1 s2 th s stimuli H1 H2 Hs Hpos Hall.
  split; [apply bayes_update_comm|].
  split; [rewrite bayes_update_comm; apply posterior_std_lt_r; assumption|].
  split; [apply posterior_std_lt_r; assumption|].
  apply update_many_sharpens; assumption.
Qed.


(** Over the reals the goal test of [external_env] is the inequality
    itself. *)
Lemma external_env_done_iff (tx tx1 : GazeTask R) (a : point R)
  (es1 : ExternalState R) (done : bool) :
  external_env tx a = Ok ((es1, done), tx1) ->
  (done = true
   <-> get_distance (ext_fixation es1) (ext_target es1) < ext_width es1 / 2).
Proof.
  intros H. apply external_env_Ok in H as (es & _ & -> & -> & _).
  cbn [ext_fixation ext_target ext_width]. apply Rltb_true_iff.
Qed.

(** *** Steps without noise *)

Lemma normal2_zero_scale (scale : R) (g : RandomState R) :
  scale = 0 ->
  normal2 0 scale g
  = Ok ({| c0 := 0; c1 := 0 |}, {| tape := tape g; pos := S (S (pos g)) |}).
Proof.
  intros ->. unfold normal2, standard_normal. cbn.
  destruct (Rltb_false_iff 0 0) as [_ ->]; [|lra].
  do 3 f_equal; ring.
Qed.

Lemma _get_response_noiseless (th : GazeTheory R) (s : InternalState R)
  (g : RandomState R) :
  internal_state th = Some s ->
  oculamotor_noise_weight th = 0 ->
  -1 <= c0 (action s) <= 1 ->
  -1 <= c1 (action s) <= 1 ->
  _get_response th g
  = Ok (action s, {| tape := tape g; pos := S (S (pos g)) |}).
Proof.
  intros Hs Hw H0 H1. unfold _get_response. rewrite Hs. cbn [bind attr].
  rewrite normal2_zero_scale by (rewrite Hw; cbn; ring). cbn [bind].
  do 2 f_equal. unfold pclip, padd. destruct (action s) as [x y]. cbn in *.
  rewrite !Rplus_0_r, !clip_inside by assumption. reflexivity.
Qed.

Lemma _get_stimulus_noiseless (th : GazeTheory R) (es : ExternalState R)
  (g : RandomState R) :
  stimulus_noise_weight th = 0 ->
  _get_stimulus th es g
  = Ok ((ext_target es, 0), {| tape := tape g; pos := S (S (pos g)) |}).
Proof.
  intros Hw. unfold _get_stimulus. rewrite Hw.
  replace (mul 0 (get_distance (ext_target es) (ext_fixation es))) with 0
    by (cbn; ring).
  rewrite normal2_zero_scale by reflexivity. cbn [bind].
  do 3 f_equal. unfold padd. destruct (ext_target es) as [x y]. cbn.
  rewrite !Rplus_0_r. reflexivity.
Qed.

(** A stimulus of deviation zero replaces a belief of positive deviation. *)
Lemma bayes_update_exact_stimulus (z b : point R) (sb : R) :
  sb <> 0 -> bayes_update z 0 b sb = (z, 0).
Proof.
  intros Hsb. unfold bayes_update, padd, pscale, sq. cbn.
  f_equal.
  - destruct z as [zx zy], b as [bx by_]. cbn. f_equal; field; exact Hsb.
  - replace (0 * 0 * (sb * sb) / (0 * 0 + sb * sb)) with 0 by (field; exact Hsb).
    exact sqrt_0.
Qed.

Lemma reward_of_zero_iff (fix_ belief : point R) (w : R) :
  0 < w ->
  (reward_of fix_ belief w = 0 <-> get_distance fix_ belief < w / 2).
Proof.
  intros Hw. unfold reward_of. cbn [neg of_Z ltb div R_Scalar].
  pose proof (get_distance_nonneg fix_ belief) as Hd.
  destruct (Rltb (get_distance fix_ belief) (w / 2)) eqn:E.
  - apply Rltb_true_iff in E. split; intros; [exact E | reflexivity].
  - apply Rltb_false_iff in E. split; intros; lra.
Qed.

(** With both noise weights zero a step is deterministic: the response
    is the action, the stimulus is the target with deviation zero, and a
    belief of non-zero deviation is replaced by the target. *)
Lemma noiseless_step (th : GazeTheory R) (ext : GazeTask R)
  (s : InternalState R) (es : ExternalState R) (a : point R)
  (g : RandomState R) :
  oculamotor_noise_weight th = 0 ->
  stimulus_noise_weight th = 0 ->
  internal_state th = Some s ->
  external_state ext = Some es ->
  -1 <= c0 a <= 1 ->
  -1 <= c1 a <= 1 ->
  target_std s <> 0 ->
  CognitivePOMDP_step th ext a g
  = Ok (({| o0 := c0 (ext_target es); o1 := c1 (ext_target es); o2 := 0 |},
         reward_of (fixation s) (ext_target es) (width s),
         Rltb (get_distance a (ext_target es)) (ext_width es / 2)),
        set_internal_state th
          {| fixation := fixation s; target := ext_target es;
             target_std := 0; width := width s; action := a |},
        set_external_state ext
          {| ext_fixation := a; ext_target := ext_target es;
             ext_width := ext_width es |},
        {| tape := tape g; pos := S (S (S (S (pos g)))) |}).
Proof.
  intros Hom Hsm Hs Hes Hx Hy Hstd.
  unfold CognitivePOMDP_step.
  erewrite _update_state_with_action_total by exact Hs. cbn [bind].
  erewrite _get_response_noiseless;
    [ | reflexivity | exact Hom | exact Hx | exact Hy ].
  cbn [bind action].
  unfold external_env. rewrite Hes.
  cbn [bind attr ext_fixation ext_target ext_width external_state
       set_external_state].
  rewrite _get_stimulus_noiseless by exact Hsm.
  cbn [bind ext_target tape pos].
  erewrite _update_state_with_stimulus_total by reflexivity.
  cbn [target target_std fixation width action].
  rewrite bayes_update_exact_stimulus by exact Hstd.
  cbn [fst snd bind]. unfold _get_obs, _get_reward.
  cbn [bind attr internal_state set_internal_state target target_std fixation
       width].
  assert (Hb : forall b : bool, (if b then true else false) = b)
    by (intros []; reflexivity).
  rewrite Hb. reflexivity.
Qed.

(** C4, as the program has it: with both noise weights zero, the first
    step after the reset whose action is the true target (a point of
    [[-1,1]^2]) returns the same result whatever the random draws; it sets
    the external fixation on the target, returns [done = True], makes the
    belief mean the target and brings [target_std] from the prior [0.1]
    down to [0].  The internal fixation is still the corner [(-1,-1)], so
    the distance from the internal fixation to the belief is the distance
    from the corner to the target, and the reward is [0] exactly when that
    distance is below half the width, and minus that distance otherwise. *)
Theorem noiseless_first_step_on_target :
  forall (th th0 : GazeTheory R) (ext : GazeTask R) (es : ExternalState R)
         (obs0 : array3 R) (g : RandomState R),
    oculamotor_noise_weight th = 0 ->
    stimulus_noise_weight th = 0 ->
    external_state ext = Some es ->
    -1 <= c0 (ext_target es) <= 1 ->
    -1 <= c1 (ext_target es) <= 1 ->
    0 < ext_width es ->
    reset_internal_env th es = Ok (obs0, th0) ->
    exists (th' : GazeTheory R) (ext' : GazeTask R) (s' : InternalState R)
           (es' : ExternalState R) (reward : R),
      CognitivePOMDP_step th0 ext (ext_target es) g
      = Ok (({| o0 := c0 (ext_target es); o1 := c1 (ext_target es); o2 := 0 |},
             reward, true),
            th', ext', {| tape := tape g; pos := S (S (S (S (pos g)))) |}) /\
      o2 obs0 = 1 / 10 /\
      internal_state th' = Some s' /\
      target s' = ext_target es /\
      target_std s' = 0 /\
      fixation s' = corner /\
      external_state ext' = Some es' /\
      ext_fixation es' = ext_target es /\
      get_distance (fixation s') (target s')
      = get_distance corner (ext_target es) /\
      reward
      = (if Rltb (get_distance corner (ext_target es)) (ext_width es / 2)
         then 0 else - get_distance corner (ext_target es)) /\
      (reward = 0 <-> get_distance corner (ext_target es) < ext_width es / 2).
Proof.
  intros th th0 ext es obs0 g Hom Hsm Hes Hx Hy Hwidth Hreset.
  unfold reset_internal_env in Hreset. cbn in Hreset.
  injection Hreset as <- <-.
  do 5 eexists. split.
  - erewrite noiseless_step;
      [ | exact Hom | exact Hsm | reflexivity | exact Hes | exact Hx
        | exact Hy | cbn; lra ].
    rewrite get_distance_same.
    destruct (Rltb_true_iff 0 (ext_width es / 2)) as [_ ->]; [|lra].
    reflexivity.
  - cbn [o2 internal_state set_internal_state].
    split; [reflexivity|].
    split; [reflexivity|]. cbn [target target_std fixation width].
    repeat split; try reflexivity.
    + apply reward_of_zero_iff. exact Hwidth.
    + apply reward_of_zero_iff. exact Hwidth.
Qed.

(** *** Steps return

    With noise weights that are not negative no call of [normal] raises:
    once the theory and the task have been reset, every step returns, and
    so does every run. *)

Lemma normal_returns (loc scale : R) (g : RandomState R) :
  0 <= scale ->
  normal loc scale g
  = Ok (loc + scale * tape g (pos g),
        {| tape := tape g; pos := S (pos g) |}).
Proof.
  intros H. unfold normal, standard_normal. cbn [ltb R_Scalar of_Z].
  rewrite (proj2 (Rltb_false_iff scale 0)) by exact H. reflexivity.
Qed.

Lemma normal2_returns (loc scale : R) (g : RandomState R) :
  0 <= scale ->
  normal2 loc scale g
  = Ok ({| c0 := loc + scale * tape g (pos g);
           c1 := loc + scale * tape g (S (pos g)) |},
        {| tape := tape g; pos := S (S (pos g)) |}).
Proof.
  intros H. unfold normal2, standard_normal. cbn [ltb R_Scalar of_Z].
  rewrite (proj2 (Rltb_false_iff scale 0)) by exact H. reflexivity.
Qed.

Lemma clip_bounds (x : R) : -1 <= clip x (-1) 1 <= 1.
Proof.
  unfold clip. cbn [ltb R_Scalar].
  destruct (Rltb x (-1)) eqn:E1; [lra|].
  destruct (Rltb 1 x) eqn:E2; [lra|].
  apply Rltb_false_iff in E1, E2. lra.
Qed.

Lemma CognitivePOMDP_step_returns (th : GazeTheory R) (ext : GazeTask R)
  (s : InternalState R) (es : ExternalState R) (a : point R)
  (g : RandomState R) :
  internal_state th = Some s ->
  external_state ext = Some es ->
  0 <= oculamotor_noise_weight th ->
  0 <= stimulus_noise_weight th ->
  exists (out : array3 R * R * bool) (s' : InternalState R)
         (es' : ExternalState R),
    CognitivePOMDP_step th ext a g
    = Ok (out, set_internal_state th s', set_external_state ext es',
          {| tape := tape g; pos := S (S (S (S (pos g)))) |}).
Proof.
  intros Hs Hes Hom Hsm. unfold CognitivePOMDP_step.
  erewrite _update_state_with_action_total by exact Hs. cbn [bind].
  unfold _get_response.
  cbn [internal_state set_internal_state attr bind oculamotor_noise_weight].
  rewrite normal2_returns
    by (apply Rmult_le_pos; [exact Hom | apply get_distance_nonneg]).
  cbn [bind]. unfold external_env. rewrite Hes.
  cbn [bind attr external_state set_external_state].
  unfold _get_stimulus. cbn [stimulus_noise_weight set_internal_state].
  rewrite normal2_returns
    by (apply Rmult_le_pos; [exact Hsm | apply get_distance_nonneg]).
  cbn [bind].
  erewrite _update_state_with_stimulus_total by reflexivity.
  cbn [bind]. unfold _get_obs, _get_reward.
  cbn [internal_state set_internal_state attr bind tape pos].
  do 3 eexists. reflexivity.
Qed.

Lemma run_theory_returns (actions : list (point R)) :
  forall (th : GazeTheory R) (ext : GazeTask R) (s : InternalState R)
         (es : ExternalState R) (g : RandomState R),
    internal_state th = Some s ->
    external_state ext = Some es ->
    0 <= oculamotor_noise_weight th ->
    0 <= stimulus_noise_weight th ->
    exists (outs : list (array3 R * R * bool)) (th' : GazeTheory R)
           (ext' : GazeTask R) (g' : RandomState R),
      run_theory th ext actions g = Ok (outs, th', ext', g') /\
      length outs = length actions.
Proof.
  induction actions as [|a rest IH]; intros th ext s es g Hs Hes Hom Hsm.
  - exists [], th, ext, g. split; reflexivity.
  - destruct (@CognitivePOMDP_step_returns _ _ _ _ a g Hs Hes Hom Hsm)
      as (out & s1 & es1 & Hstep).
    destruct (IH (set_internal_state th s1) (set_external_state ext es1)
                 s1 es1 {| tape := tape g; pos := S (S (S (S (pos g)))) |}
                 eq_refl eq_refl Hom Hsm)
      as (outs & th' & ext' & g' & Hrun & Hlen).
    exists (out :: outs), th', ext', g'.
    cbn [run_theory]. rewrite Hstep. cbn [bind]. rewrite Hrun. cbn [bind].
    split; [reflexivity | cbn; congruence].
Qed.

Lemma GazeModel_reset_returns (m : GazeModel R) (g : RandomState R) :
  0 <= target_loc_std (TX m) ->
  exists (m0 : GazeModel R) (s0 : InternalState R) (es0 : ExternalState R),
    GazeModel_reset m g
    = Ok ({| o0 := 0; o1 := 0; o2 := 1 / 10 |}, m0,
          {| tape := tape g; pos := S (S (pos g)) |}) /\
    internal_state (GT m0) = Some s0 /\
    external_state (TX m0) = Some es0 /\
    oculamotor_noise_weight (GT m0) = oculamotor_noise_weight (GT m) /\
    stimulus_noise_weight (GT m0) = stimulus_noise_weight (GT m) /\
    -1 <= c0 (ext_target es0) <= 1 /\
    -1 <= c1 (ext_target es0) <= 1 /\
    ext_fixation es0 = corner.
Proof.
  intros Hstd. unfold GazeModel_reset, reset_external_env.
  rewrite normal_returns by exact Hstd. cbn [bind].
  rewrite normal_returns by exact Hstd.
  cbn [bind attr external_state set_external_state].
  unfold reset_internal_env, _get_obs.
  cbn [bind attr internal_state set_internal_state target target_std c0 c1].
  do 3 eexists. split; [reflexivity|].
  cbn -[clip].
  repeat split; try reflexivity; apply clip_bounds.
Qed.

Lemma run_model_returns (actions : list (point R)) :
  forall (m : GazeModel R) (s : InternalState R) (es : ExternalState R)
         (n : Z) (g : RandomState R),
    internal_state (GT m) = Some s ->
    external_state (TX m) = Some es ->
    n_step m = Some n ->
    0 <= oculamotor_noise_weight (GT m) ->
    0 <= stimulus_noise_weight (GT m) ->
    exists (outs : list (array3 R * R * bool * Info R)) (m' : GazeModel R)
           (g' : RandomState R),
      run_model m actions g = Ok (outs, m', g') /\
      length outs = length actions.
Proof.
  induction actions as [|a rest IH]; intros m s es n g Hs Hes Hn Hom Hsm.
  - exists [], m, g. split; reflexivity.
  - destruct (@CognitivePOMDP_step_returns _ _ _ _ a g Hs Hes Hom Hsm)
      as ([[obs reward] done] & s1 & es1 & Hstep).
    cbn [run_model]. unfold GazeModel_step. rewrite Hstep, Hn.
    cbn [bind attr]. unfold get_info.
    cbn [bind attr n_step TX external_state set_external_state].
    match goal with
    | |- context [run_model ?m1 rest ?g1] =>
        destruct (IH m1 s1 es1 (n + 1)%Z g1 eq_refl eq_refl eq_refl Hom Hsm)
          as (outs & m' & g' & Hrun & Hlen)
    end.
    rewrite Hrun. cbn [bind]. do 3 eexists.
    split; [reflexivity | cbn; congruence].
Qed.

(** An episode of the gym environment, from [reset] through any list of
    actions, returns whatever the random draws. *)
Lemma episode_returns (m : GazeModel R) (g : RandomState R)
  (actions : list (point R)) :
  0 <= target_loc_std (TX m) ->
  0 <= oculamotor_noise_weight (GT m) ->
  0 <= stimulus_noise_weight (GT m) ->
  exists (obs0 : array3 R) (m0 m' : GazeModel R) (g0 g' : RandomState R)
         (outs : list (array3 R * R * bool * Info R)),
    GazeModel_reset m g = Ok (obs0, m0, g0) /\
    run_model m0 actions g0 = Ok (outs, m', g') /\
    length outs = length actions.
Proof.
  intros Hstd Hom Hsm.
  destruct (@GazeModel_reset_returns m g Hstd)
    as (m0 & s0 & es0 & Hreset & Hs0 & Hes0 & Hom0 & Hsm0 & _).
  pose proof Hreset as Hn0. apply GazeModel_reset_Ok in Hn0 as (Hn0 & _).
  rewrite <- Hom0 in Hom. rewrite <- Hsm0 in Hsm.
  destruct (@run_model_returns actions m0 s0 es0 0%Z
              {| tape := tape g; pos := S (S (pos g)) |} Hs0 Hes0 Hn0 Hom Hsm)
    as (outs & m' & g' & Hrun & Hlen).
  do 6 eexists. split; [exact Hreset|]. split; [exact Hrun | exact Hlen].
Qed.

(** The deviation that an observation reports is never negative: it is the
    prior [0.1] or a square root. *)
Lemma observation_std_nonneg (th th' : GazeTheory R) (ext ext' : GazeTask R)
  (a : point R) (g g' : RandomState R) (obs : array3 R) (reward : R)
  (done : bool) :
  CognitivePOMDP_step th ext a g = Ok ((obs, reward, done), th', ext', g') ->
  0 <= o2 obs.
Proof.
  intros H.
  apply CognitivePOMDP_step_internal in H
    as (s & s' & stm & stm_std & _ & _ & _ & _ & _ & Hb & -> & _).
  cbn. injection Hb as _ ->. apply sqrt_pos.
Qed.

(** *** Instances *)

(** The weights of a stimulus of deviation [0.09] against the prior
    [0.1]. *)
Lemma bayes_update_precision_weighted_witness :
  ~ (9 / 100 = 0 /\ 1 / 10 = 0) /\
  (1 / 10) ^ 2 / ((9 / 100) ^ 2 + (1 / 10) ^ 2)
  + (9 / 100) ^ 2 / ((9 / 100) ^ 2 + (1 / 10) ^ 2) = 1.
Proof.
  assert (H : ~ (9 / 100 = 0 /\ 1 / 10 = 0)) by (intros [H _]; lra).
  split; [exact H|].
  exact (proj1 (proj2 (bayes_update_precision_weighted
                         stimulus_a belief_a H))).
Defined.

(** Two stimuli of deviations [0.09] and [0.05] after a reset. *)
Lemma bayes_update_commutes_and_sharpens_witness :
  0 < 9 / 100 /\ 0 < 1 / 10 /\
  internal_state real_theory_ready = Some real_state_ready /\
  0 < target_std real_state_ready /\
  Forall (fun p : point R * R => 0 < snd p)
         [(stimulus_a, 9 / 100); (stimulus_a, 1 / 20)] /\
  snd (bayes_update stimulus_a (9 / 100) belief_a (1 / 10)) < 9 / 100 /\
  exists (stds : list R) (th' : GazeTheory R),
    update_many real_theory_ready [(stimulus_a, 9 / 100); (stimulus_a, 1 / 20)]
    = Ok (stds, th') /\
    non_increasing (target_std real_state_ready :: stds).
Proof.
  assert (H1 : 0 < 9 / 100) by lra.
  assert (H2 : 0 < 1 / 10) by lra.
  assert (H3 : 0 < target_std real_state_ready) by (cbn; lra).
  assert (H4 : Forall (fun p : point R * R => 0 < snd p)
                      [(stimulus_a, 9 / 100); (stimulus_a, 1 / 20)])
    by (repeat constructor; cbn; lra).
  destruct (@bayes_update_commutes_and_sharpens
              stimulus_a belief_a (9 / 100) (1 / 10) real_theory_ready real_state_ready
              [(stimulus_a, 9 / 100); (stimulus_a, 1 / 20)]
              H1 H2 eq_refl H3 H4)
    as (_ & Hlt & _ & stds & th' & Hrun & _ & Hsorted).
  repeat (split; [assumption || reflexivity|]).
  exists stds, th'. split; assumption.
Defined.

(** The scenario with the target fixed at [(0.3, -0.2)] and the width
    [0.15]. *)
Lemma noiseless_first_step_witness :
  oculamotor_noise_weight real_theory_noiseless = 0 /\
  stimulus_noise_weight real_theory_noiseless = 0 /\
  external_state real_task_fixed = Some real_es_fixed /\
  -1 <= c0 (ext_target real_es_fixed) <= 1 /\
  -1 <= c1 (ext_target real_es_fixed) <= 1 /\
  0 < ext_width real_es_fixed /\
  exists (obs0 : array3 R) (th0 th' : GazeTheory R) (ext' : GazeTask R)
         (reward : R) (g' : RandomState R),
    reset_internal_env real_theory_noiseless real_es_fixed = Ok (obs0, th0) /\
    CognitivePOMDP_step th0 real_task_fixed stimulus_a rng_zeros
    = Ok (({| o0 := 3 / 10; o1 := - (2 / 10); o2 := 0 |}, reward, true),
          th', ext', g').
Proof.
  assert (Hx : -1 <= c0 (ext_target real_es_fixed) <= 1) by (cbn; lra).
  assert (Hy : -1 <= c1 (ext_target real_es_fixed) <= 1) by (cbn; lra).
  assert (Hw : 0 < ext_width real_es_fixed) by (cbn; lra).
  destruct (@noiseless_first_step_on_target
              real_theory_noiseless _ real_task_fixed real_es_fixed _ rng_zeros
              eq_refl eq_refl eq_refl Hx Hy Hw eq_refl)
    as (th' & ext' & s' & es' & reward & Hstep & _).
  repeat (split; [assumption || reflexivity|]).
  do 6 eexists. split; [reflexivity | exact Hstep].
Defined.

End RealModel.

(** ** The binary64 reading *)

Module FloatModel.

Import FloatDemo.
Local Open Scope float_scope.

(** A task that has been reset, at an action away from its target. *)
Lemma external_env_witness :
  external_state task_inside = Some es_inside /\
  exists (es1 : ExternalState float) (done : bool) (tx1 : GazeTask float),
    external_env task_inside action_far = Ok ((es1, done), tx1) /\
    ext_fixation es1 = action_far /\
    ext_target es1 = ext_target es_inside.
Proof.
  split; [reflexivity|].
  destruct (@external_env_sets_fixation_and_tests_goal float _
              task_inside es_inside action_far eq_refl)
    as (es1 & done & tx1 & Henv & _ & Hfix & Htg & _).
  exists es1, done, tx1. repeat split; assumption.
Defined.

(** A step of the ordinary episode returns, and its stimulus deviation is
    the one of the fixation reached. *)
Lemma step_stimulus_witness :
  exists (th' : GazeTheory float) (ext' : GazeTask float)
         (obs : array3 float) (reward : float) (done : bool)
         (g' : RandomState float) (es' : ExternalState float)
         (response : point float) (stimulus_std : float),
    CognitivePOMDP_step theory_ready task_inside action_far
      (rng_of draws_inside)
    = Ok ((obs, reward, done), th', ext', g') /\
    external_state ext' = Some es' /\
    ext_fixation es' = response /\
    stimulus_std
    = stimulus_noise_weight theory_ready
      * get_distance (ext_target es') response.
Proof.
  eassert (Hstep : CognitivePOMDP_step theory_ready task_inside action_far
                     (rng_of draws_inside) = Ok (_, _, _, _, _, _))
    by (vm_compute; reflexivity).
  destruct (@step_stimulus_uses_post_movement_fixation float _
              _ _ _ _ _ _ _ _ _ _ Hstep)
    as (th1 & response & g1 & es' & stm & stm_std
        & _ & _ & _ & Hes' & Hfix & Hstd & _).
  do 9 eexists. split; [exact Hstep|].
  split; [exact Hes'|]. split; [exact Hfix | exact Hstd].
Defined.

(** The same step, and its reward. *)
Lemma step_reward_witness :
  exists (th' : GazeTheory float) (ext' : GazeTask float)
         (obs : array3 float) (reward : float) (done : bool)
         (g' : RandomState float) (s' : InternalState float),
    CognitivePOMDP_step theory_ready task_inside action_far
      (rng_of draws_inside)
    = Ok ((obs, reward, done), th', ext', g') /\
    internal_state th' = Some s' /\
    reward
    = (if get_distance (fixation s') (target s') <? width s' / 2
       then 0 else - get_distance (fixation s') (target s')).
Proof.
  eassert (Hstep : CognitivePOMDP_step theory_ready task_inside action_far
                     (rng_of draws_inside) = Ok (_, _, _, _, _, _))
    by (vm_compute; reflexivity).
  destruct (@step_reward_from_updated_belief float _ _ _ _ _ _ _ _ _ _ _
              Hstep)
    as (s & s' & stm & stm_std & _ & Hs' & _ & _ & Hr).
  do 7 eexists. split; [exact Hstep|]. split; [exact Hs' | exact Hr].
Defined.

(** Three steps after a reset, the second one onto the target: the
    internal fixation is still the corner. *)
Lemma internal_fixation_witness :
  exists (obs0 : array3 float) (th0 th' : GazeTheory float)
         (ext' : GazeTask float) (outs : list (array3 float * float * bool))
         (g' : RandomState float) (s' : InternalState float),
    reset_internal_env GazeTheory_init es_inside = Ok (obs0, th0) /\
    run_theory th0 task_inside [action_far; ext_target es_inside; action_far]
      (rng_of draws_inside)
    = Ok (outs, th', ext', g') /\
    internal_state th' = Some s' /\
    fixation s' = corner.
Proof.
  eassert (Hreset : reset_internal_env GazeTheory_init es_inside = Ok (_, _))
    by (vm_compute; reflexivity).
  eassert (Hrun : run_theory theory_ready task_inside
                    [action_far; ext_target es_inside; action_far]
                    (rng_of draws_inside) = Ok (_, _, _, _))
    by (vm_compute; reflexivity).
  destruct (@internal_fixation_never_updated float _ _ _ _ _ _ _ _ _ _ _ _
              Hreset Hrun)
    as ((s' & Hs' & Hfix & _) & _).
  do 7 eexists. split; [exact Hreset|]. split; [exact Hrun|].
  split; [exact Hs' | exact Hfix].
Defined.

(** An episode of 501 steps that never reach the target: the step 500
    returns [done = False], the step 501 returns [done = True]. *)
Lemma step_cap_witness :
  exists (obs0 : array3 float) (m0 m' : GazeModel float)
         (g0 g' : RandomState float)
         (outs : list (array3 float * float * bool * Info float)),
    GazeModel_reset GazeModel_init (rng_of draws_inside) = Ok (obs0, m0, g0) /\
    run_model m0 (repeat action_far 501) g0 = Ok (outs, m', g') /\
    n_step m' = Some 501%Z /\
    (forall (obs : array3 float) (reward : float) (done : bool)
            (info : Info float),
        nth_error outs 499 = Some (obs, reward, done, info) ->
        goal_reached info = false /\ done = false) /\
    (forall (obs : array3 float) (reward : float) (done : bool)
            (info : Info float),
        nth_error outs 500 = Some (obs, reward, done, info) -> done = true).
Proof.
  eassert (Hreset : GazeModel_reset GazeModel_init (rng_of draws_inside)
                    = Ok (_, _, _))
    by (vm_compute; reflexivity).
  lazymatch type of Hreset with
  | _ = Ok (_, ?m0, ?g0) =>
      eassert (Hrun : run_model m0 (repeat action_far 501) g0 = Ok (_, _, _))
        by (vm_compute; reflexivity)
  end.
  destruct (@step_cap_truncation float _ _ _ _ _ _ _ _ _ _ Hreset Hrun)
    as (_ & _ & _ & Hn & Hall).
  do 6 eexists. split; [exact Hreset|]. split; [exact Hrun|].
  split; [exact Hn|]. split.
  - intros obs reward done info Hnth.
    assert (Hgoal : goal_reached info = false).
    { vm_compute in Hnth. injection Hnth as _ _ _ <-. vm_compute.
      reflexivity. }
    split; [exact Hgoal|].
    apply Hall in Hnth as (_ & _ & Hlow & _). apply Hlow; [exact Hgoal|].
    vm_compute. discriminate.
  - intros obs reward done info Hnth.
    apply Hall in Hnth as (_ & _ & _ & Hcap). apply Hcap. reflexivity.
Defined.


(** C9, at an input where the program leaves the declared domain: in an
    episode whose target was clipped to the right edge, one step with an
    action next to the target returns an observation whose first component
    is above [1], the upper bound of the declared [observation_space]; the
    stimulus is not clipped, so the posterior mean follows it out of the
    box.  The step does not end the episode. *)
Theorem observation_leaves_declared_box :
  exists (obs0 obs : array3 float) (m0 m1 : GazeModel float)
         (g0 g1 : RandomState float) (reward : float) (info : Info float),
    GazeModel_reset GazeModel_init (rng_of draws_edge) = Ok (obs0, m0, g0) /\
    GazeModel_step m0 action_edge g0 = Ok ((obs, reward, false, info), m1, g1) /\
    info_target_x info = 1 /\
    high (observation_space m1) = 1 /\
    (high (observation_space m1) <? o0 obs) = true.
Proof.
  do 8 eexists.
  repeat (split; [vm_compute; reflexivity|]).
  vm_compute. reflexivity.
Qed.

(** C10: the division of zero by zero is reached through [reset] and
    [step] with the parameters of the notebook.  In an episode whose target
    was clipped to the corner [(-1,-1)], the action [(-1,-1)] moves nothing:
    the response lands on the target, the eccentricity and with it the
    deviation of the stimulus are [0], and the update leaves [target_std]
    at exactly [0].  The same action again calls [bayes_update] with two
    deviations [0]; the step raises nothing and returns an observation and a
    reward that are all NaN.  Whatever the means, [bayes_update] with two
    zero deviations returns a NaN deviation. *)
Theorem zero_over_zero_is_reachable :
  exists (obs0 obs1 obs2 : array3 float) (m0 m1 m2 : GazeModel float)
         (g0 g1 g2 : RandomState float) (r1 r2 : float) (d1 d2 : bool)
         (i1 i2 : Info float) (s1 s2 : InternalState float)
         (es1 : ExternalState float),
    GazeModel_reset GazeModel_init (rng_of draws_corner) = Ok (obs0, m0, g0) /\
    GazeModel_step m0 corner g0 = Ok ((obs1, r1, d1, i1), m1, g1) /\
    external_state (TX m1) = Some es1 /\
    ext_fixation es1 = ext_target es1 /\
    stimulus_noise_weight (GT m1)
    * get_distance (ext_target es1) (ext_fixation es1) = 0 /\
    d1 = true /\
    internal_state (GT m1) = Some s1 /\
    target_std s1 = 0 /\
    GazeModel_step m1 corner g1 = Ok ((obs2, r2, d2, i2), m2, g2) /\
    external_state (TX m2) = Some es1 /\
    internal_state (GT m2) = Some s2 /\
    target s2 = {| c0 := nan; c1 := nan |} /\
    target_std s2 = nan /\
    obs2 = {| o0 := nan; o1 := nan; o2 := nan |} /\
    r2 = nan /\
    (forall z1 z2 : point float, snd (bayes_update z1 0 z2 0) = nan).
Proof.
  do 18 eexists.
  repeat (split; [vm_compute; reflexivity|]).
  intros z1 z2. vm_compute. reflexivity.
Qed.


(** In the ordinary episode the fixation before the movement would give
    another deviation: the one used is not the one of the corner where the
    gaze was. *)
Lemma stimulus_std_not_from_previous_fixation :
  exists (th' : GazeTheory float) (ext' : GazeTask float)
         (out : array3 float * float * bool) (g' : RandomState float)
         (es' : ExternalState float),
    CognitivePOMDP_step theory_ready task_inside action_far
      (rng_of draws_inside)
    = Ok (out, th', ext', g') /\
    external_state ext' = Some es' /\
    (stimulus_noise_weight theory_ready
     * get_distance (ext_target es') (ext_fixation es')
     =? stimulus_noise_weight theory_ready
        * get_distance (ext_target es_inside) (ext_fixation es_inside))
    = false.
Proof.
  do 5 eexists.
  repeat (split; [vm_compute; reflexivity|]).
  vm_compute. reflexivity.
Qed.

(** C6 fails in binary64 as it is stated: for the strictly positive
    deviations [2^-30] and [0.125] the sum of the squares rounds to
    [0.125^2], and the posterior deviation returned is [2^-30] itself, not
    a number strictly below it. *)
Lemma posterior_std_not_strictly_smaller :
  (0 <? 0x1p-30) = true /\
  (0 <? 0.125) = true /\
  snd (bayes_update {| c0 := 0.5; c1 := 0.25 |} 0x1p-30
                    {| c0 := 0; c1 := 0 |} 0.125)
  = 0x1p-30 /\
  (snd (bayes_update {| c0 := 0.5; c1 := 0.25 |} 0x1p-30
                     {| c0 := 0; c1 := 0 |} 0.125)
   <? 0x1p-30) = false.
Proof. repeat split; vm_compute; reflexivity. Qed.

(** *** The noiseless scenario, step after step *)

Lemma noiseless_reset :
  reset_internal_env theory_noiseless es_fixed
  = Ok ({| o0 := 0; o1 := 0; o2 := dec 1 10 |}, theory_noiseless_ready).
Proof. vm_compute. reflexivity. Qed.

Lemma noiseless_step_first (p : nat) :
  CognitivePOMDP_step theory_noiseless_ready task_fixed (ext_target es_fixed)
    (rng_ones p)
  = Ok (out_first, theory_exact, task_on_target, rng_ones (4 + p)).
Proof. vm_compute. reflexivity. Qed.

Lemma noiseless_step_second (p : nat) :
  CognitivePOMDP_step theory_exact task_on_target (ext_target es_fixed)
    (rng_ones p)
  = Ok (out_nan, theory_nan, task_on_target, rng_ones (4 + p)).
Proof. vm_compute. reflexivity. Qed.

Lemma noiseless_step_later (p : nat) :
  CognitivePOMDP_step theory_nan task_on_target (ext_target es_fixed)
    (rng_ones p)
  = Ok (out_nan, theory_nan, task_on_target, rng_ones (4 + p)).
Proof. vm_compute. reflexivity. Qed.

Lemma noiseless_run_later (n : nat) :
  forall p : nat,
    run_theory theory_nan task_on_target (repeat (ext_target es_fixed) n)
      (rng_ones p)
    = Ok (repeat out_nan n, theory_nan, task_on_target,
          rng_ones (4 * n + p)).
Proof.
  induction n as [|n IH]; intros p.
  - reflexivity.
  - cbn [repeat run_theory]. rewrite noiseless_step_later. cbn [bind].
    rewrite IH. cbn [bind].
    replace (4 * S n + p)%nat with (4 * n + (4 + p))%nat by lia. reflexivity.
Qed.

(** The rewards of the scenario: minus the distance from the corner to the
    target at the first step, NaN afterwards. *)
Lemma noiseless_run (n : nat) :
  run_theory theory_noiseless_ready task_fixed
    (repeat (ext_target es_fixed) (S (S n))) (rng_ones 0)
  = Ok (out_first :: out_nan :: repeat out_nan n, theory_nan, task_on_target,
        rng_ones (4 * n + 8)).
Proof.
  cbn [repeat run_theory].
  rewrite noiseless_step_first. cbn [bind].
  rewrite noiseless_step_second. cbn [bind].
  fold (repeat (ext_target es_fixed) n).
  rewrite noiseless_run_later. cbn [bind].
  replace (4 * n + (4 + (4 + 0)))%nat with (4 * n + 8)%nat by lia. reflexivity.
Qed.

(** C4 fails as it is stated: in the scenario with both noise weights zero
    and the action always the true target, no step ever returns the reward
    [0].  The first reward is minus the distance from the corner [(-1,-1)] to
    the target, every later one is NaN. *)
Lemma noiseless_run_never_rewards_zero :
  ~ exists (n k : nat) (outs : list (array3 float * float * bool))
           (th' : GazeTheory float) (ext' : GazeTask float)
           (g' : RandomState float) (obs : array3 float) (reward : float)
           (done : bool),
      run_theory theory_noiseless_ready task_fixed
        (repeat (ext_target es_fixed) n) (rng_ones 0)
      = Ok (outs, th', ext', g') /\
      nth_error outs k = Some (obs, reward, done) /\
      (reward =? 0) = true.
Proof.
  intros (n & k & outs & th' & ext' & g' & obs & reward & done
          & Hrun & Hnth & Hzero).
  assert (Hin : In (obs, reward, done) [out_first; out_nan]).
  { destruct n as [|[|n]].
    - cbn in Hrun. injection Hrun as <- _ _ _. destruct k; discriminate Hnth.
    - cbn [repeat run_theory] in Hrun.
      rewrite noiseless_step_first in Hrun. cbn in Hrun.
      injection Hrun as <- _ _ _.
      apply nth_error_In in Hnth. destruct Hnth as [<- | []]. left. reflexivity.
    - rewrite noiseless_run in Hrun. injection Hrun as <- _ _ _.
      apply nth_error_In in Hnth.
      destruct Hnth as [<- | [<- | Hrep]]; [left | right; left | right; left];
        try reflexivity.
      apply repeat_spec in Hrep. symmetry. exact Hrep. }
  destruct Hin as [E | [E | []]]; injection E as _ <- _;
    vm_compute in Hzero; discriminate Hzero.
Qed.

End FloatModel.

(** ** More on the program, for every number type *)

Section Episode.

Context {T : Type} {num : Scalar T}.
Local Open Scope num_scope.

Lemma normal_Ok (loc scale v : T) (g g1 : RandomState T) :
  normal loc scale g = Ok (v, g1) ->
  (scale <? of_Z 0) = false /\
  v = loc + scale * tape g (pos g) /\
  g1 = {| tape := tape g; pos := S (pos g) |}.
Proof.
  unfold normal, standard_normal. intros H.
  destruct (scale <? of_Z 0); [discriminate|].
  injection H as <- <-. auto.
Qed.



Lemma _get_response_Ok (th : GazeTheory T) (g g1 : RandomState T)
  (response : point T) :
  _get_response th g = Ok (response, g1) ->
  exists s : InternalState T,
    internal_state th = Some s /\
    (oculamotor_noise_weight th * get_distance (fixation s) (action s)
     <? of_Z 0) = false /\
    response
    = pclip (padd (action s)
               {| c0 := of_Z 0
                        + oculamotor_noise_weight th
                          * get_distance (fixation s) (action s)
                          * tape g (pos g);
                  c1 := of_Z 0
                        + oculamotor_noise_weight th
                          * get_distance (fixation s) (action s)
                          * tape g (S (pos g)) |})
            (of_Z (-1)) (of_Z 1) /\
    g1 = {| tape := tape g; pos := S (S (pos g)) |}.
Proof.
  unfold _get_response. intros H.
  destruct (internal_state th) as [s|]; [cbn [bind attr] in H | discriminate].
  destruct (normal2 _ _ g) as [[noise g2]|e] eqn:E; [|discriminate].
  cbn [bind] in H. injection H as <- <-.
  apply normal2_Ok in E as (Hscale & -> & ->).
  exists s. repeat split. exact Hscale.
Qed.


Lemma reset_external_env_Ok (tx tx1 : GazeTask T) (g g1 : RandomState T) :
  reset_external_env tx g = Ok (tx1, g1) ->
  (target_loc_std tx <? of_Z 0) = false /\
  tx1 = set_external_state tx
          {| ext_fixation := corner;
             ext_target :=
               {| c0 := clip (of_Z 0 + target_loc_std tx * tape g (pos g))
                          (of_Z (-1)) (of_Z 1);
                  c1 := clip (of_Z 0 + target_loc_std tx * tape g (S (pos g)))
                          (of_Z (-1)) (of_Z 1) |};
             ext_width := target_width tx |} /\
  g1 = {| tape := tape g; pos := S (S (pos g)) |}.
Proof.
  unfold reset_external_env. intros H.
  destruct (normal (of_Z 0) (target_loc_std tx) g) as [[nx g2]|e] eqn:E1;
    [cbn [bind] in H | discriminate].
  destruct (normal (of_Z 0) (target_loc_std tx) g2) as [[ny g3]|e] eqn:E2;
    [cbn [bind] in H | discriminate].
  injection H as <- <-.
  apply normal_Ok in E1 as (Hs & -> & ->).
  apply normal_Ok in E2 as (_ & -> & ->).
  repeat split. exact Hs.
Qed.

(** A step that returns changes the theory and the task in their state
    dictionaries only. *)
Lemma CognitivePOMDP_step_shape (th th' : GazeTheory T) (ext ext' : GazeTask T)
  (a : point T) (g g' : RandomState T) (out : array3 T * T * bool) :
  CognitivePOMDP_step th ext a g = Ok (out, th', ext', g') ->
  exists (s' : InternalState T) (es es' : ExternalState T),
    th' = set_internal_state th s' /\
    external_state ext = Some es /\
    ext' = set_external_state ext es' /\
    ext_target es' = ext_target es /\
    ext_width es' = ext_width es /\
    g' = {| tape := tape g; pos := S (S (S (S (pos g)))) |}.
Proof.
  destruct out as [[obs reward] done]. intros H.
  apply CognitivePOMDP_step_Ok in H
    as (th1 & response & g1 & es' & stm & stm_std
        & Hact & Hresp & Henv & _ & Hstm & Hupd & _ & _).
  apply _update_state_with_action_Ok in Hact as (s & Hs & ->).
  apply _update_state_with_stimulus_Ok in Hupd as (s1 & _ & ->).
  apply external_env_Ok in Henv as (es & Hes & Hes' & _ & ->).
  apply _get_response_Ok in Hresp as (_ & _ & _ & _ & ->).
  apply _get_stimulus_Ok in Hstm as (_ & _ & ->).
  do 3 eexists. split; [reflexivity|]. split; [exact Hes|].
  split; [reflexivity|]. subst es'. repeat split.
Qed.

Lemma run_theory_shape (actions : list (point T)) :
  forall (th th' : GazeTheory T) (ext ext' : GazeTask T)
         (g g' : RandomState T) (outs : list (array3 T * T * bool)),
    run_theory th ext actions g = Ok (outs, th', ext', g') ->
    oculamotor_noise_weight th' = oculamotor_noise_weight th /\
    stimulus_noise_weight th' = stimulus_noise_weight th /\
    step_cost th' = step_cost th /\
    target_width ext' = target_width ext /\
    target_loc_std ext' = target_loc_std ext.
Proof.
  induction actions as [|a rest IH]; intros th th' ext ext' g g' outs H.
  - cbn in H. injection H as _ <- <- _. repeat split.
  - cbn [run_theory] in H. monad_inv H.
    match goal with
    | E : CognitivePOMDP_step _ _ _ _ = Ok _ |- _ =>
        apply CognitivePOMDP_step_shape in E
          as (s1 & es & es1 & -> & _ & -> & _)
    end.
    match goal with
    | E : run_theory _ _ _ _ = Ok _ |- _ => apply IH in E; exact E
    end.
Qed.


Lemma GazeModel_step_shape (m m' : GazeModel T) (a : point T)
  (g g' : RandomState T) (out : array3 T * T * bool * Info T) :
  GazeModel_step m a g = Ok (out, m', g') ->
  exists (es es' : ExternalState T) (n : Z),
    same_parameters m' m /\
    external_state (TX m) = Some es /\
    external_state (TX m') = Some es' /\
    ext_target es' = ext_target es /\
    ext_width es' = ext_width es /\
    n_step m = Some n /\
    n_step m' = Some (n + 1)%Z /\
    g' = {| tape := tape g; pos := S (S (S (S (pos g)))) |} /\
    (let '(_, _, _, info) := out in
     info_target_x info = c0 (ext_target es) /\
     info_target_y info = c1 (ext_target es) /\
     info_target_width info = target_width (TX m)).
Proof.
  unfold GazeModel_step. intros H. monad_inv H.
  match goal with
  | E : CognitivePOMDP_step _ _ _ _ = Ok _ |- _ =>
      apply CognitivePOMDP_step_shape in E
        as (s1 & es & es1 & -> & Hes & -> & Htg & Hw & ->)
  end.
  match goal with
  | E : get_info _ = Ok _ |- _ => unfold get_info in E; cbn in E
  end.
  match goal with
  | E : Ok _ = Ok _ |- _ => injection E as <-
  end.
  exists es, es1. eexists. cbn.
  split; [unfold same_parameters; cbn; repeat split|].
  rewrite Htg. repeat split; try assumption; reflexivity.
Qed.

Lemma run_model_shape (actions : list (point T)) :
  forall (m m' : GazeModel T) (g g' : RandomState T)
         (outs : list (array3 T * T * bool * Info T))
         (es : ExternalState T),
    run_model m actions g = Ok (outs, m', g') ->
    external_state (TX m) = Some es ->
    same_parameters m' m /\
    (exists es' : ExternalState T,
        external_state (TX m') = Some es' /\
        ext_target es' = ext_target es /\
        ext_width es' = ext_width es) /\
    tape g' = tape g /\
    pos g' = (pos g + 4 * length actions)%nat /\
    length outs = length actions /\
    Forall (fun out : array3 T * T * bool * Info T =>
              let '(_, _, _, info) := out in
              info_target_x info = c0 (ext_target es) /\
              info_target_y info = c1 (ext_target es) /\
              info_target_width info = target_width (TX m))
           outs.
Proof.
  induction actions as [|a rest IH]; intros m m' g g' outs es H Hes.
  - cbn in H. injection H as <- <- <-.
    split; [unfold same_parameters; repeat split|].
    split; [eauto|]. cbn. rewrite Nat.add_0_r. repeat split. constructor.
  - cbn [run_model] in H. monad_inv H.
    match goal with
    | E : GazeModel_step _ _ _ = Ok (_, ?m1, _) |- _ => rename m1 into mid
    end.
    match goal with
    | E : GazeModel_step _ _ _ = Ok _ |- _ =>
        apply GazeModel_step_shape in E
          as (es0 & es1 & n & Hpar & Hes0 & Hes1 & Htg & Hw & _ & _ & -> & Hinfo)
    end.
    rewrite Hes in Hes0. injection Hes0 as <-.
    match goal with
    | E : run_model _ _ _ = Ok _ |- _ =>
        destruct (IH _ _ _ _ _ _ E Hes1)
          as (Hpar' & (es' & Hes' & Htg' & Hw') & Htape & Hpos & Hlen & Hall)
    end.
    split.
    { unfold same_parameters in *. intuition congruence. }
    split; [exists es'; intuition congruence|].
    split; [exact Htape|].
    split; [rewrite Hpos; cbn [pos length]; lia|].
    split; [cbn [length]; congruence|].
    constructor; [exact Hinfo|].
    rewrite Htg in Hall.
    replace (target_width (TX m)) with (target_width (TX mid)); [exact Hall|].
    unfold same_parameters in Hpar. tauto.
Qed.





Lemma GazeModel_reset_shape (m m0 : GazeModel T) (g g0 : RandomState T)
  (obs0 : array3 T) :
  GazeModel_reset m g = Ok (obs0, m0, g0) ->
  exists es0 : ExternalState T,
    external_state (TX m0) = Some es0 /\
    ext_fixation es0 = corner /\
    ext_width es0 = target_width (TX m) /\
    same_parameters m0 m /\
    g0 = {| tape := tape g; pos := S (S (pos g)) |}.
Proof.
  unfold GazeModel_reset. intros H. monad_inv H.
  match goal with
  | E : reset_external_env _ _ = Ok _ |- _ =>
      apply reset_external_env_Ok in E as (_ & -> & ->)
  end.
  match goal with
  | E : reset_internal_env _ _ = Ok _ |- _ =>
      unfold reset_internal_env in E; cbn in E; injection E as _ <-
  end.
  match goal with
  | E : external_state _ = Some _ |- _ => cbn in E; injection E as <-
  end.
  eexists. split; [reflexivity|]. cbn.
  repeat split.
Qed.

(** X3: what an episode takes from the random generator.  [reset] draws
    two variates (the target), each [step] draws four (two for the motor
    noise, then two for the stimulus), whatever the actions and the values
    drawn; nothing of the tape itself is changed. *)
Theorem episode_consumes_draws :
  forall (m m0 m' : GazeModel T) (g g0 g' : RandomState T) (obs0 : array3 T)
         (actions : list (point T))
         (outs : list (array3 T * T * bool * Info T)),
    GazeModel_reset m g = Ok (obs0, m0, g0) ->
    run_model m0 actions g0 = Ok (outs, m', g') ->
    pos g0 = (pos g + 2)%nat /\
    pos g' = (pos g + 2 + 4 * length actions)%nat /\
    tape g' = tape g /\
    length outs = length actions.
Proof.
  intros m m0 m' g g0 g' obs0 actions outs Hreset Hrun.
  apply GazeModel_reset_shape in Hreset as (es0 & Hes0 & _ & _ & _ & ->).
  eapply run_model_shape in Hrun; [|exact Hes0].
  destruct Hrun as (_ & _ & Htape & Hpos & Hlen & _).
  cbn in Htape, Hpos. cbn [pos]. repeat split; try assumption; lia.
Qed.

(** X4: within an episode the target and the width never change.  After
    [reset], whatever steps follow, the external state still holds the
    target drawn at the reset and the width [target_width]; every [info]
    returned on the way reports that target and that width; and the
    parameters of the model are the ones it had. *)
Theorem target_fixed_over_episode :
  forall (m m0 m' : GazeModel T) (g g0 g' : RandomState T) (obs0 : array3 T)
         (actions : list (point T))
         (outs : list (array3 T * T * bool * Info T)),
    GazeModel_reset m g = Ok (obs0, m0, g0) ->
    run_model m0 actions g0 = Ok (outs, m', g') ->
    exists es0 es' : ExternalState T,
      external_state (TX m0) = Some es0 /\
      external_state (TX m') = Some es' /\
      ext_fixation es0 = corner /\
      ext_target es' = ext_target es0 /\
      ext_width es' = target_width (TX m) /\
      same_parameters m' m /\
      Forall (fun out : array3 T * T * bool * Info T =>
                let '(_, _, _, info) := out in
                info_target_x info = c0 (ext_target es0) /\
                info_target_y info = c1 (ext_target es0) /\
                info_target_width info = target_width (TX m))
             outs.
Proof.
  intros m m0 m' g g0 g' obs0 actions outs Hreset Hrun.
  apply GazeModel_reset_shape in Hreset as (es0 & Hes0 & Hfix & Hw0 & Hpar0 & _).
  eapply run_model_shape in Hrun; [|exact Hes0].
  destruct Hrun as (Hpar & (es' & Hes' & Htg & Hw) & _ & _ & _ & Hall).
  assert (Hpar' : same_parameters m' m)
    by (unfold same_parameters in *; intuition congruence).
  assert (Htw : target_width (TX m0) = target_width (TX m))
    by (unfold same_parameters in Hpar0; tauto).
  rewrite Htw in Hall.
  exists es0, es'. repeat (split; [first [assumption | congruence]|]). exact Hall.
Qed.

(** [reset] reads the parameters of the model only. *)
Lemma GazeModel_reset_parameters (m1 m2 : GazeModel T) (g : RandomState T) :
  same_parameters m1 m2 -> GazeModel_reset m1 g = GazeModel_reset m2 g.
Proof.
  intros (H1 & H2 & H3 & H4 & H5 & H6 & H7 & H8).
  unfold GazeModel_reset, reset_external_env, reset_internal_env,
    set_external_state, set_internal_state.
  rewrite H1, H2, H3, H4, H5, H6, H7, H8. reflexivity.
Qed.

(** X5: nothing of an episode survives a [reset].  After a reset and any
    steps, a new [reset] returns what it would have returned on the model
    as it was before the episode: the belief, the fixations, the target
    and the step count of the episode are all replaced. *)
Theorem reset_forgets_episode :
  forall (m m0 m' : GazeModel T) (g g0 g' : RandomState T) (obs0 : array3 T)
         (actions : list (point T))
         (outs : list (array3 T * T * bool * Info T)),
    GazeModel_reset m g = Ok (obs0, m0, g0) ->
    run_model m0 actions g0 = Ok (outs, m', g') ->
    forall g2 : RandomState T, GazeModel_reset m' g2 = GazeModel_reset m g2.
Proof.
  intros m m0 m' g g0 g' obs0 actions outs Hreset Hrun g2.
  apply GazeModel_reset_parameters.
  apply GazeModel_reset_shape in Hreset as (es0 & Hes0 & _ & _ & Hpar0 & _).
  eapply run_model_shape in Hrun; [|exact Hes0].
  destruct Hrun as (Hpar & _).
  unfold same_parameters in *. intuition congruence.
Qed.

(** X6: the motor noise is measured from the starting corner.  After
    [reset_internal_env] and any steps, the next step moves the external
    fixation to the action plus a noise of deviation
    [oculamotor_noise_weight] times the distance from the corner [(-1,-1)]
    to the action, clipped to the box: the distance is not taken from where
    the gaze is, since the internal fixation is never moved. *)
Theorem motor_noise_measured_from_corner :
  forall (th th0 th1 th2 : GazeTheory T) (es : ExternalState T)
         (obs0 : array3 T) (ext ext1 ext2 : GazeTask T)
         (actions : list (point T)) (g g1 g2 : RandomState T)
         (outs : list (array3 T * T * bool)) (a : point T)
         (out : array3 T * T * bool),
    reset_internal_env th es = Ok (obs0, th0) ->
    run_theory th0 ext actions g = Ok (outs, th1, ext1, g1) ->
    CognitivePOMDP_step th1 ext1 a g1 = Ok (out, th2, ext2, g2) ->
    exists es2 : ExternalState T,
      external_state ext2 = Some es2 /\
      let motor_std := oculamotor_noise_weight th * get_distance corner a in
      ext_fixation es2
      = pclip (padd a {| c0 := of_Z 0 + motor_std * tape g1 (pos g1);
                         c1 := of_Z 0 + motor_std * tape g1 (S (pos g1)) |})
              (of_Z (-1)) (of_Z 1).
Proof.
  intros th th0 th1 th2 es obs0 ext ext1 ext2 actions g g1 g2 outs a out
         Hreset Hrun Hstep.
  unfold reset_internal_env in Hreset. cbn in Hreset.
  injection Hreset as _ <-.
  pose proof (run_theory_shape _ _ _ _ Hrun) as (Hom & _).
  eapply run_theory_frame in Hrun; [|reflexivity].
  destruct Hrun as ((s1 & Hs1 & Hfix & _) & _).
  cbn in Hom, Hfix.
  destruct out as [[obs reward] done].
  apply CognitivePOMDP_step_Ok in Hstep
    as (thA & response & gA & es2 & stm & stm_std
        & Hact & Hresp & Henv & Hes2 & _).
  apply _update_state_with_action_Ok in Hact as (s & Hs & ->).
  rewrite Hs1 in Hs. injection Hs as <-.
  apply _get_response_Ok in Hresp as (sA & HsA & _ & Hr & _).
  cbn in HsA. injection HsA as <-. cbn in Hr.
  apply external_env_Ok in Henv as (es1 & _ & -> & _ & _).
  exists {| ext_fixation := response; ext_target := ext_target es1;
            ext_width := ext_width es1 |}.
  split; [exact Hes2|]. cbn [ext_fixation]. cbn zeta.
  rewrite Hr, Hfix, Hom. reflexivity.
Qed.


Lemma update_many_cons (th : GazeTheory T) (s : InternalState T)
  (z : point T) (sd : T) (rest : list (point T * T)) :
  internal_state th = Some s ->
  update_many th ((z, sd) :: rest)
  = bind (update_many (set_internal_state th (fused s z sd)) rest)
         (fun r => Ok (target_std (fused s z sd) :: fst r, snd r)).
Proof.
  intros Hs. cbn [update_many].
  rewrite (_update_state_with_stimulus_total _ _ _ Hs).
  cbn [bind attr internal_state set_internal_state]. fold (fused s z sd).
  destruct (update_many _ rest) as [[stds th2]|e]; reflexivity.
Qed.


Lemma GazeModel_step_fixate (m m' : GazeModel T) (a : point T)
  (g g' : RandomState T) (obs : array3 T) (reward : T) (done : bool)
  (info : Info T) :
  GazeModel_step m a g = Ok ((obs, reward, done, info), m', g') ->
  exists (p : point T) (es' : ExternalState T),
    external_state (TX m') = Some es' /\
    ext_fixation es' = pclip p (of_Z (-1)) (of_Z 1) /\
    info_fixate_x info = c0 (ext_fixation es') /\
    info_fixate_y info = c1 (ext_fixation es').
Proof.
  unfold GazeModel_step. intros H. monad_inv H.
  match goal with
  | E : CognitivePOMDP_step _ _ _ _ = Ok _ |- _ =>
      apply CognitivePOMDP_step_Ok in E
        as (th1 & response & rs1 & es' & stm & stm_std
            & _ & Hresp & Henv & Hes' & _)
  end.
  apply _get_response_Ok in Hresp as (s & _ & _ & Hr & _).
  apply external_env_Ok in Henv as (es & _ & Hes1 & _ & _).
  match goal with
  | E : get_info _ = Ok _ |- _ => unfold get_info in E; cbn in E
  end.
  rewrite Hes' in *.
  match goal with
  | E : bind _ _ = Ok _ |- _ => cbn in E; injection E as <-
  end.
  do 2 eexists. cbn. split; [exact Hes'|].
  split; [subst es'; cbn; exact Hr|]. split; reflexivity.
Qed.


Lemma GazeModel_reset_internal (m m0 : GazeModel T) (g g0 : RandomState T)
  (obs0 : array3 T) :
  GazeModel_reset m g = Ok (obs0, m0, g0) ->
  internal_state (GT m0)
  = Some {| fixation := corner;
            target := {| c0 := of_Z 0; c1 := of_Z 0 |};
            target_std := dec 1 10;
            width := target_width (TX m);
            action := corner |}.
Proof.
  unfold GazeModel_reset. intros H. monad_inv H.
  match goal with
  | E : reset_external_env _ _ = Ok _ |- _ =>
      apply reset_external_env_Ok in E as (_ & -> & ->)
  end.
  match goal with
  | E : external_state _ = Some _ |- _ => cbn in E; injection E as <-
  end.
  match goal with
  | E : reset_internal_env _ _ = Ok _ |- _ =>
      unfold reset_internal_env in E; cbn in E; injection E as _ <-
  end.
  reflexivity.
Qed.

End Episode.

(** ** More on the program, over the reals *)

Module RealExtra.

Import RealModel RealDemo ExtraDemo.
Local Open Scope R_scope.

(** *** The Bayesian update *)

Lemma weights_normalised (s1 s2 : R) :
  ~ (s1 = 0 /\ s2 = 0) ->
  0 < sq s1 + sq s2 /\
  0 <= sq s2 / (sq s1 + sq s2) /\
  0 <= sq s1 / (sq s1 + sq s2) /\
  sq s2 / (sq s1 + sq s2) + sq s1 / (sq s1 + sq s2) = 1.
Proof.
  intros Hnz. unfold sq. cbn.
  assert (H1 : 0 <= s1 * s1) by nra.
  assert (H2 : 0 <= s2 * s2) by nra.
  assert (Hden : 0 < s1 * s1 + s2 * s2).
  { destruct (Req_dec s1 0) as [-> | Hs1].
    - assert (Hs2 : s2 <> 0) by (intros ->; apply Hnz; split; reflexivity).
      apply sq_pos in Hs2. unfold sq in Hs2. cbn in Hs2. lra.
    - apply sq_pos in Hs1. unfold sq in Hs1. cbn in Hs1. lra. }
  split; [exact Hden|].
  split; [apply Rmult_le_pos; [lra | left; apply Rinv_0_lt_compat; lra]|].
  split; [apply Rmult_le_pos; [lra | left; apply Rinv_0_lt_compat; lra]|].
  field. lra.
Qed.

Lemma convex_between (w1 w2 x y : R) :
  0 <= w1 -> 0 <= w2 -> w1 + w2 = 1 ->
  Rmin x y <= w1 * x + w2 * y <= Rmax x y.
Proof.
  intros H1 H2 Hsum.
  pose proof (Rmin_l x y). pose proof (Rmin_r x y).
  pose proof (Rmax_l x y). pose proof (Rmax_r x y).
  replace w2 with (1 - w1) in * by lra.
  split; nra.
Qed.

(** X7: the posterior mean never leaves the interval between the stimulus
    and the belief: when the deviations are not both zero, each coordinate
    of the mean that [bayes_update] returns lies between that coordinate of
    the stimulus and that of the belief. *)
Theorem posterior_mean_between :
  forall (stimulus belief : point R) (stimulus_std belief_std : R),
    ~ (stimulus_std = 0 /\ belief_std = 0) ->
    Rmin (c0 stimulus) (c0 belief)
    <= c0 (fst (bayes_update stimulus stimulus_std belief belief_std))
    <= Rmax (c0 stimulus) (c0 belief) /\
    Rmin (c1 stimulus) (c1 belief)
    <= c1 (fst (bayes_update stimulus stimulus_std belief belief_std))
    <= Rmax (c1 stimulus) (c1 belief).
Proof.
  intros z1 z2 s1 s2 Hnz.
  destruct (weights_normalised Hnz) as (_ & Hw1 & Hw2 & Hsum).
  rewrite bayes_update_formula. cbn [fst c0 c1].
  split; apply convex_between; assumption.
Qed.

Lemma posterior_std_sqr (z1 z2 : point R) (s1 s2 : R) :
  ~ (s1 = 0 /\ s2 = 0) ->
  0 <= posterior_var s1 s2 /\
  snd (bayes_update z1 s1 z2 s2) * snd (bayes_update z1 s1 z2 s2)
  = posterior_var s1 s2.
Proof.
  intros Hnz. destruct (weights_normalised Hnz) as (Hden & _ & _ & _).
  assert (Hv : 0 <= posterior_var s1 s2).
  { unfold posterior_var. apply Rmult_le_pos.
    - unfold sq. cbn. nra.
    - left. apply Rinv_0_lt_compat. exact Hden. }
  split; [exact Hv|].
  change (snd (bayes_update z1 s1 z2 s2))
    with (R_sqrt.sqrt (posterior_var s1 s2)).
  apply sqrt_sqrt. exact Hv.
Qed.

(** X8: precisions add.  For strictly positive deviations the inverse of
    the squared posterior deviation is the sum of the inverses of the two
    squared deviations given. *)
Theorem precisions_add :
  forall (stimulus belief : point R) (stimulus_std belief_std : R),
    0 < stimulus_std -> 0 < belief_std ->
    / (snd (bayes_update stimulus stimulus_std belief belief_std)) ^ 2
    = / stimulus_std ^ 2 + / belief_std ^ 2.
Proof.
  intros z1 z2 s1 s2 H1 H2.
  assert (Hnz : ~ (s1 = 0 /\ s2 = 0)) by (intros [-> _]; lra).
  destruct (posterior_std_sqr z1 z2 Hnz) as (_ & Hsq).
  replace (snd (bayes_update z1 s1 z2 s2) ^ 2)
    with (posterior_var s1 s2) by (rewrite <- Hsq; ring).
  unfold posterior_var, sq. cbn.
  field. repeat split; nra.
Qed.

(** X9: certainty wins, and nothing is ever lost.  For deviations that are
    not negative and not both zero, the posterior deviation is at most the
    smaller of the two and is zero exactly when one of them is zero; a
    stimulus of deviation zero replaces the belief, and a belief of
    deviation zero is kept whatever the stimulus: once [target_std] is
    zero the belief no longer moves. *)
Theorem certainty_wins :
  forall (stimulus belief : point R) (stimulus_std belief_std : R),
    0 <= stimulus_std -> 0 <= belief_std ->
    ~ (stimulus_std = 0 /\ belief_std = 0) ->
    0 <= snd (bayes_update stimulus stimulus_std belief belief_std)
      <= Rmin stimulus_std belief_std /\
    (snd (bayes_update stimulus stimulus_std belief belief_std) = 0
     <-> stimulus_std = 0 \/ belief_std = 0) /\
    (stimulus_std = 0 ->
     bayes_update stimulus stimulus_std belief belief_std = (stimulus, 0)) /\
    (belief_std = 0 ->
     bayes_update stimulus stimulus_std belief belief_std = (belief, 0)).
Proof.
  intros z1 z2 s1 s2 H1 H2 Hnz.
  destruct (weights_normalised Hnz) as (Hden & _ & _ & _).
  destruct (posterior_std_sqr z1 z2 Hnz) as (Hv & Hsq).
  set (p := snd (bayes_update z1 s1 z2 s2)) in *.
  assert (Hp : 0 <= p) by (apply sqrt_pos).
  assert (Hvar : posterior_var s1 s2 * (sq s1 + sq s2) = sq s1 * sq s2).
  { unfold posterior_var. field. lra. }
  unfold sq in Hvar, Hden. cbn in Hvar, Hden.
  split; [|split; [|split]].
  - split; [exact Hp|].
    set (v := posterior_var s1 s2) in *.
    set (a := s1 * s1) in *. set (b := s2 * s2) in *.
    assert (Ha : 0 <= a) by (unfold a; nra).
    assert (Hb : 0 <= b) by (unfold b; nra).
    apply Rmin_glb.
    + apply Rnot_lt_le. intros Hlt.
      assert (Hpp : a < p * p) by (unfold a; nra).
      assert (Hd : a * (a + b) < v * (a + b))
        by (apply Rmult_lt_compat_r; lra).
      nra.
    + apply Rnot_lt_le. intros Hlt.
      assert (Hpp : b < p * p) by (unfold b; nra).
      assert (Hd : b * (a + b) < v * (a + b))
        by (apply Rmult_lt_compat_r; lra).
      nra.
  - split.
    + intros Hz. rewrite Hz in Hsq.
      assert (Hprod : s1 * s1 * (s2 * s2) = 0) by nra.
      destruct (Req_dec s1 0) as [|Hs1]; [left; assumption|].
      right. apply Rmult_integral in Hprod as [Hprod | Hprod];
        apply Rmult_integral in Hprod; tauto.
    + intros Hz.
      assert (Hprod : s1 * s1 * (s2 * s2) = 0) by (destruct Hz as [-> | ->]; ring).
      assert (Hpp : p * p = 0) by nra.
      apply Rmult_integral in Hpp. tauto.
  - intros ->. apply bayes_update_exact_stimulus. intros ->. apply Hnz.
    split; reflexivity.
  - intros ->. rewrite bayes_update_comm.
    apply bayes_update_exact_stimulus. intros ->. apply Hnz.
    split; reflexivity.
Qed.


(** *** The order of the stimuli *)

(** The update in terms of the squared deviations. *)
Lemma bayes_update_squares (z1 z2 : point R) (s1 s2 a b : R) :
  sq s1 = a -> sq s2 = b ->
  bayes_update z1 s1 z2 s2
  = ({| c0 := b / (a + b) * c0 z1 + a / (a + b) * c0 z2;
        c1 := b / (a + b) * c1 z1 + a / (a + b) * c1 z2 |},
     R_sqrt.sqrt (a * b / (a + b))).
Proof. intros <- <-. reflexivity. Qed.

Lemma sq_posterior_std (z1 z2 : point R) (s1 s2 : R) :
  0 < s1 -> 0 < s2 ->
  sq (snd (bayes_update z1 s1 z2 s2)) = sq s1 * sq s2 / (sq s1 + sq s2).
Proof.
  intros H1 H2.
  assert (Hnz : ~ (s1 = 0 /\ s2 = 0)) by (intros [-> _]; lra).
  destruct (posterior_std_sqr z1 z2 Hnz) as (_ & Hsq). exact Hsq.
Qed.

(** Two stimuli taken in either order leave the same belief. *)
Lemma bayes_update_swap (m z1 z2 : point R) (s s1 s2 : R) :
  0 < s -> 0 < s1 -> 0 < s2 ->
  bayes_update z2 s2 (fst (bayes_update z1 s1 m s))
                     (snd (bayes_update z1 s1 m s))
  = bayes_update z1 s1 (fst (bayes_update z2 s2 m s))
                       (snd (bayes_update z2 s2 m s)).
Proof.
  intros Hs H1 H2.
  pose proof (sq_posterior_std z1 m H1 Hs) as Ha.
  pose proof (sq_posterior_std z2 m H2 Hs) as Hb.
  rewrite (bayes_update_squares z2 _ eq_refl Ha).
  rewrite (bayes_update_squares z1 _ eq_refl Hb).
  rewrite !bayes_update_formula. cbn [fst c0 c1].
  assert (Pa : 0 < sq s1) by (apply sq_pos; lra).
  assert (Pb : 0 < sq s2) by (apply sq_pos; lra).
  assert (Pc : 0 < sq s) by (apply sq_pos; lra).
  set (a := sq s1) in *. set (b := sq s2) in *. set (c := sq s) in *.
  assert (Pab : 0 < a * b) by (apply Rmult_lt_0_compat; assumption).
  assert (Pac : 0 < a * c) by (apply Rmult_lt_0_compat; assumption).
  assert (Pbc : 0 < b * c) by (apply Rmult_lt_0_compat; assumption).
  cbn [add sub mul div sqrt R_Scalar].
  f_equal.
  - f_equal; field; repeat split; lra.
  - f_equal. field. repeat split; lra.
Qed.


Lemma update_many_permutation (l l' : list (point R * R)) :
  Permutation l l' ->
  forall (th : GazeTheory R) (s : InternalState R),
    internal_state th = Some s ->
    0 < target_std s ->
    Forall (fun p : point R * R => 0 < snd p) l ->
    exists (stds stds' : list R) (th' : GazeTheory R),
      update_many th l = Ok (stds, th') /\
      update_many th l' = Ok (stds', th').
Proof.
  induction 1 as [|[z sd] l l' Hperm IH|[zx sx] [zy sy] l|l l' l'' H1 IH1 H2 IH2];
    intros th s Hs Hpos Hall.
  - exists [], [], th. split; reflexivity.
  - inversion Hall as [|? ? Hsd Hrest]; subst. cbn in Hsd.
    destruct (posterior_std_lt_r z (target s) Hsd Hpos) as [Hgt _].
    destruct (IH (set_internal_state th (fused s z sd)) (fused s z sd)
                 eq_refl Hgt Hrest)
      as (stds & stds' & th' & Hl & Hl').
    rewrite (@update_many_cons R _ th s z sd l Hs).
    rewrite (@update_many_cons R _ th s z sd l' Hs).
    rewrite Hl, Hl'. cbn [bind fst snd].
    do 3 eexists. split; reflexivity.
  - inversion Hall as [|? ? Hsy Hrest]; subst.
    inversion Hrest as [|? ? Hsx Hl]; subst. cbn in Hsx, Hsy.
    destruct (posterior_std_lt_r zy (target s) Hsy Hpos) as [Hgty _].
    assert (Hswap : fused (fused s zy sy) zx sx
                    = fused (fused s zx sx) zy sy).
    { unfold fused. cbn [fixation target target_std width action].
      rewrite (bayes_update_swap (target s) zy zx Hpos Hsy Hsx).
      reflexivity. }
    destruct (posterior_std_lt_r zx (target (fused s zy sy)) Hsx Hgty)
      as [Hgtyx _].
    destruct (@update_many_sharpens l
                (set_internal_state th (fused (fused s zy sy) zx sx))
                (fused (fused s zy sy) zx sx) eq_refl Hgtyx Hl)
      as (stds & th' & Hrun & _).
    rewrite (@update_many_cons R _ th s zy sy ((zx, sx) :: l) Hs).
    rewrite (@update_many_cons R _ (set_internal_state th (fused s zy sy))
               (fused s zy sy) zx sx l eq_refl).
    rewrite (@update_many_cons R _ th s zx sx ((zy, sy) :: l) Hs).
    rewrite (@update_many_cons R _ (set_internal_state th (fused s zx sx))
               (fused s zx sx) zy sy l eq_refl).
    change (set_internal_state (set_internal_state th (fused s zy sy))
              (fused (fused s zy sy) zx sx))
      with (set_internal_state th (fused (fused s zy sy) zx sx)).
    change (set_internal_state (set_internal_state th (fused s zx sx))
              (fused (fused s zx sx) zy sy))
      with (set_internal_state th (fused (fused s zx sx) zy sy)).
    rewrite <- Hswap, Hrun. cbn [bind fst snd].
    do 3 eexists. split; reflexivity.
  - destruct (IH1 th s Hs Hpos Hall) as (stds & stds1 & th1 & Hl & Hl1).
    assert (Hall' : Forall (fun p : point R * R => 0 < snd p) l')
      by (eapply Permutation_Forall; eassumption).
    destruct (IH2 th s Hs Hpos Hall') as (stds2 & stds'' & th2 & Hl2 & Hl'').
    rewrite Hl1 in Hl2. injection Hl2 as _ <-.
    exists stds, stds'', th1. split; assumption.
Qed.

(** X10: the order of the stimuli does not matter.  Starting from a belief
    of positive deviation, repeated [_update_state_with_stimulus] over
    stimuli of strictly positive deviations ends in the same internal state
    (the same belief mean and the same [target_std]) in whatever order the
    stimuli are taken. *)
Theorem fusion_order_irrelevant :
  forall (th : GazeTheory R) (s : InternalState R)
         (stimuli stimuli' : list (point R * R)),
    internal_state th = Some s ->
    0 < target_std s ->
    Forall (fun p : point R * R => 0 < snd p) stimuli ->
    Permutation stimuli stimuli' ->
    exists (stds stds' : list R) (th' : GazeTheory R),
      update_many th stimuli = Ok (stds, th') /\
      update_many th stimuli' = Ok (stds', th').
Proof.
  intros th s stimuli stimuli' Hs Hpos Hall Hperm.
  exact (@update_many_permutation stimuli stimuli' Hperm th s Hs Hpos Hall).
Qed.


(** *** Rewards *)


(** *** Exceptions *)

Lemma get_distance_pos (a b : point R) : a <> b -> 0 < get_distance a b.
Proof.
  intros Hne. unfold get_distance, sq. cbn. apply sqrt_lt_R0.
  destruct a as [ax ay], b as [bx by_]. cbn.
  pose proof (Rle_0_sqr (ax - bx)) as Px.
  pose proof (Rle_0_sqr (ay - by_)) as Py. unfold Rsqr in Px, Py.
  destruct (Req_dec ax bx) as [-> | Hx].
  - assert (Hy : ay - by_ <> 0)
      by (intros H; apply Hne; f_equal; lra).
    apply Rsqr_pos_lt in Hy. unfold Rsqr in Hy. lra.
  - assert (Hx' : ax - bx <> 0) by lra.
    apply Rsqr_pos_lt in Hx'. unfold Rsqr in Hx'. lra.
Qed.



(** *** The box *)

Lemma pclip_in_box (p : point R) : in_box (pclip p (-1) 1).
Proof. unfold in_box, pclip. cbn [c0 c1]. split; apply clip_bounds. Qed.

Lemma run_model_box (actions : list (point R)) :
  forall (m m' : GazeModel R) (g g' : RandomState R)
         (outs : list (array3 R * R * bool * Info R)) (es : ExternalState R),
    run_model m actions g = Ok (outs, m', g') ->
    external_state (TX m) = Some es ->
    in_box (ext_fixation es) ->
    (exists es' : ExternalState R,
        external_state (TX m') = Some es' /\ in_box (ext_fixation es')) /\
    Forall (fun out : array3 R * R * bool * Info R =>
              let '(_, _, _, info) := out in
              in_box {| c0 := info_fixate_x info; c1 := info_fixate_y info |})
           outs.
Proof.
  induction actions as [|a rest IH]; intros m m' g g' outs es H Hes Hbox.
  - cbn in H. injection H as <- <- <-. split; [eauto | constructor].
  - cbn [run_model] in H. monad_inv H.
    match goal with
    | E : GazeModel_step _ _ _ = Ok (?o, _, _) |- _ =>
        destruct o as [[[obs1 reward1] done1] info1];
        apply GazeModel_step_fixate in E
          as (p & es1 & Hes1 & Hfix & Hix & Hiy)
    end.
    assert (Hbox1 : in_box (ext_fixation es1))
      by (rewrite Hfix; apply pclip_in_box).
    match goal with
    | E : run_model _ _ _ = Ok _ |- _ =>
        destruct (IH _ _ _ _ _ _ E Hes1 Hbox1) as (Hfinal & Hall)
    end.
    split; [exact Hfinal|]. constructor; [|exact Hall].
    rewrite Hix, Hiy. destruct (ext_fixation es1). exact Hbox1.
Qed.

(** X13: the gaze and the target stay in the box.  For a model whose
    noise weights and [target_loc_std] are not negative, [reset] and any
    steps return; the target drawn lies in [[-1,1]^2], and after every step
    the external fixation, which is the clipped response, lies in
    [[-1,1]^2] as well, whatever the actions (even outside the box) and
    the draws.  Every [info] reports such a fixation and such a target. *)
Theorem gaze_and_target_stay_in_box :
  forall (m : GazeModel R) (g : RandomState R) (actions : list (point R)),
    0 <= target_loc_std (TX m) ->
    0 <= oculamotor_noise_weight (GT m) ->
    0 <= stimulus_noise_weight (GT m) ->
    exists (obs0 : array3 R) (m0 m' : GazeModel R) (g0 g' : RandomState R)
           (outs : list (array3 R * R * bool * Info R))
           (es' : ExternalState R),
      GazeModel_reset m g = Ok (obs0, m0, g0) /\
      run_model m0 actions g0 = Ok (outs, m', g') /\
      external_state (TX m') = Some es' /\
      in_box (ext_fixation es') /\
      in_box (ext_target es') /\
      Forall (fun out : array3 R * R * bool * Info R =>
                let '(_, _, _, info) := out in
                in_box {| c0 := info_fixate_x info;
                          c1 := info_fixate_y info |} /\
                in_box {| c0 := info_target_x info;
                          c1 := info_target_y info |})
             outs.
Proof.
  intros m g actions Hstd Hom Hsm.
  destruct (@GazeModel_reset_returns m g Hstd)
    as (m0 & s0 & es0 & Hreset & Hs0 & Hes0 & Hom0 & Hsm0 & Hx & Hy & Hfix).
  pose proof Hreset as Hn0. apply GazeModel_reset_Ok in Hn0 as (Hn0 & _).
  rewrite <- Hom0 in Hom. rewrite <- Hsm0 in Hsm.
  destruct (@run_model_returns actions m0 s0 es0 0%Z
              {| tape := tape g; pos := S (S (pos g)) |} Hs0 Hes0 Hn0 Hom Hsm)
    as (outs & m' & g' & Hrun & _).
  assert (Hbox0 : in_box (ext_fixation es0)).
  { rewrite Hfix. unfold in_box, corner. cbn. lra. }
  pose proof Hrun as Hb.
  eapply run_model_box in Hb; [|exact Hes0|exact Hbox0].
  destruct Hb as ((es' & Hes' & Hbox') & Hfixes).
  pose proof Hrun as Hsh.
  eapply run_model_shape in Hsh; [|exact Hes0].
  destruct Hsh as (_ & (es'' & Hes'' & Htg & _) & _ & _ & _ & Htargets).
  rewrite Hes' in Hes''. injection Hes'' as <-.
  exists {| o0 := 0; o1 := 0; o2 := 1 / 10 |}, m0, m',
         {| tape := tape g; pos := S (S (pos g)) |}, g', outs, es'.
  split; [exact Hreset|]. split; [exact Hrun|]. split; [exact Hes'|].
  split; [exact Hbox'|].
  split; [rewrite Htg; split; assumption|].
  rewrite Forall_forall in *. intros [[[obs reward] done] info] Hin.
  specialize (Hfixes _ Hin). specialize (Htargets _ Hin). cbn in Hfixes, Htargets.
  destruct Htargets as (-> & -> & _).
  split; [exact Hfixes | split; assumption].
Qed.


(** *** The test loop *)

Lemma GazeModel_step_returns (m : GazeModel R) (s : InternalState R)
  (es : ExternalState R) (n : Z) (a : point R) (g : RandomState R) :
  internal_state (GT m) = Some s ->
  external_state (TX m) = Some es ->
  n_step m = Some n ->
  0 <= oculamotor_noise_weight (GT m) ->
  0 <= stimulus_noise_weight (GT m) ->
  exists (obs : array3 R) (reward : R) (done : bool) (info : Info R)
         (m' : GazeModel R) (s' : InternalState R) (es' : ExternalState R),
    GazeModel_step m a g
    = Ok ((obs, reward, done, info), m',
          {| tape := tape g; pos := S (S (S (S (pos g)))) |}) /\
    internal_state (GT m') = Some s' /\
    external_state (TX m') = Some es' /\
    n_step m' = Some (n + 1)%Z /\
    same_parameters m' m /\
    ((max_steps m < n + 1)%Z -> done = true).
Proof.
  intros Hs Hes Hn Hom Hsm.
  destruct (@CognitivePOMDP_step_returns _ _ _ _ a g Hs Hes Hom Hsm)
    as ([[obs reward] done] & s1 & es1 & Hstep).
  unfold GazeModel_step. rewrite Hstep, Hn.
  cbn [bind attr]. unfold get_info.
  cbn [bind attr n_step TX external_state set_external_state].
  do 7 eexists. split; [reflexivity|].
  cbn [GT TX n_step internal_state external_state set_internal_state
       set_external_state].
  split; [reflexivity|]. split; [reflexivity|]. split; [reflexivity|].
  split; [unfold same_parameters; cbn; repeat split|].
  intros Hlt. apply Z.ltb_lt in Hlt. cbn [max_steps]. rewrite Hlt.
  reflexivity.
Qed.

Lemma step_until_done_ends (sample : nat -> point R) (fuel : nat) :
  forall (m : GazeModel R) (s : InternalState R) (es : ExternalState R)
         (n : Z) (i : nat) (g : RandomState R),
    internal_state (GT m) = Some s ->
    external_state (TX m) = Some es ->
    n_step m = Some n ->
    0 <= oculamotor_noise_weight (GT m) ->
    0 <= stimulus_noise_weight (GT m) ->
    (1 <= fuel)%nat ->
    (max_steps m - n < Z.of_nat fuel)%Z ->
    exists (k : nat) (m' : GazeModel R) (g' : RandomState R),
      step_until_done fuel m sample i g = Ok (Some (i + k)%nat, m', g') /\
      (1 <= k)%nat /\
      (Z.of_nat k <= Z.max 1 (max_steps m + 1 - n))%Z /\
      n_step m' = Some (n + Z.of_nat k)%Z.
Proof.
  induction fuel as [|fuel IH]; intros m s es n i g Hs Hes Hn Hom Hsm Hf Hcap.
  - lia.
  - destruct (@GazeModel_step_returns m s es n (sample i) g Hs Hes Hn Hom Hsm)
      as (obs & reward & done & info & m1 & s1 & es1
          & Hstep & Hs1 & Hes1 & Hn1 & Hpar & Hdone).
    cbn [step_until_done]. rewrite Hstep. cbn [bind].
    destruct done.
    + exists 1%nat, m1, {| tape := tape g; pos := S (S (S (S (pos g)))) |}.
      replace (i + 1)%nat with (S i) by lia.
      repeat split; try reflexivity; try lia. exact Hn1.
    + assert (Hmax : (n + 1 <= max_steps m)%Z).
      { destruct (Z_lt_le_dec (max_steps m) (n + 1)) as [Hlt|Hle];
          [apply Hdone in Hlt; discriminate | exact Hle]. }
      assert (Hmax1 : max_steps m1 = max_steps m)
        by (unfold same_parameters in Hpar; tauto).
      assert (Hom1 : 0 <= oculamotor_noise_weight (GT m1))
        by (unfold same_parameters in Hpar; destruct Hpar as (-> & _); exact Hom).
      assert (Hsm1 : 0 <= stimulus_noise_weight (GT m1))
        by (unfold same_parameters in Hpar;
            destruct Hpar as (_ & -> & _); exact Hsm).
      destruct (IH m1 s1 es1 (n + 1)%Z (S i)
                   {| tape := tape g; pos := S (S (S (S (pos g)))) |}
                   Hs1 Hes1 Hn1 Hom1 Hsm1 ltac:(lia) ltac:(lia))
        as (k & m' & g' & Hloop & Hk & Hbound & Hn').
      exists (S k), m', g'.
      replace (i + S k)%nat with (S i + k)%nat by lia.
      split; [exact Hloop|]. split; [lia|].
      split; [rewrite Hmax1 in Hbound; lia|].
      rewrite Hn'. f_equal. lia.
Qed.

(** X14: the test loop ends within the cap.  For a model whose noise
    weights and [target_loc_std] are not negative and whose [max_steps] is
    not negative, the loop of the notebook ([reset], then [step] on sampled
    actions until [done]) ends, whatever the actions sampled and the random
    draws: given at least [max_steps + 1] rounds it stops after a number of
    steps between [1] and [max_steps + 1], and [n_step] is then that
    number. *)
Theorem test_loop_ends_within_cap :
  forall (m : GazeModel R) (g : RandomState R) (sample : nat -> point R)
         (fuel : nat),
    0 <= target_loc_std (TX m) ->
    0 <= oculamotor_noise_weight (GT m) ->
    0 <= stimulus_noise_weight (GT m) ->
    (0 <= max_steps m)%Z ->
    (max_steps m + 1 <= Z.of_nat fuel)%Z ->
    exists (obs0 : array3 R) (m0 m' : GazeModel R) (g0 g' : RandomState R)
           (i : nat),
      GazeModel_reset m g = Ok (obs0, m0, g0) /\
      step_until_done fuel m0 sample 0 g0 = Ok (Some i, m', g') /\
      (1 <= i)%nat /\
      (Z.of_nat i <= max_steps m + 1)%Z /\
      n_step m' = Some (Z.of_nat i).
Proof.
  intros m g sample fuel Hstd Hom Hsm Hmax Hfuel.
  destruct (@GazeModel_reset_returns m g Hstd)
    as (m0 & s0 & es0 & Hreset & Hs0 & Hes0 & Hom0 & Hsm0 & _).
  pose proof Hreset as Hn0.
  apply GazeModel_reset_Ok in Hn0 as (Hn0 & Hmax0 & _).
  rewrite <- Hom0 in Hom. rewrite <- Hsm0 in Hsm.
  destruct (@step_until_done_ends sample fuel m0 s0 es0 0%Z 0%nat
              {| tape := tape g; pos := S (S (pos g)) |}
              Hs0 Hes0 Hn0 Hom Hsm ltac:(lia) ltac:(lia))
    as (k & m' & g' & Hloop & Hk & Hbound & Hn').
  do 6 eexists. split; [exact Hreset|]. split; [exact Hloop|].
  split; [exact Hk|]. split; [lia|]. exact Hn'.
Qed.


(** *** Uncertainty over an episode *)

Lemma GazeModel_step_sharpens (m m' : GazeModel R) (a : point R)
  (g g' : RandomState R) (out : array3 R * R * bool * Info R)
  (s : InternalState R) :
  GazeModel_step m a g = Ok (out, m', g') ->
  internal_state (GT m) = Some s ->
  0 < target_std s ->
  0 < stimulus_noise_weight (GT m) ->
  gaze_off_target out ->
  exists s' : InternalState R,
    internal_state (GT m') = Some s' /\
    target_std s' = reported_std out /\
    0 < reported_std out < target_std s /\
    stimulus_noise_weight (GT m') = stimulus_noise_weight (GT m).
Proof.
  destruct out as [[[obs reward] done] info].
  unfold GazeModel_step. intros H Hs Hpos Hsm Hoff. monad_inv H.
  match goal with
  | E : CognitivePOMDP_step _ _ _ _ = Ok _ |- _ =>
      apply CognitivePOMDP_step_Ok in E
        as (th1 & response & rs1 & es' & stm & stm_std
            & Hact & _ & _ & Hes' & Hstm & Hupd & Hobs & _)
  end.
  apply _update_state_with_action_Ok in Hact as (s0 & Hs0 & ->).
  rewrite Hs in Hs0. injection Hs0 as <-.
  apply _get_stimulus_Ok in Hstm as (Hstd & _ & _).
  apply _update_state_with_stimulus_Ok in Hupd as (s1 & Hs1 & ->).
  cbn in Hs1. injection Hs1 as <-.
  cbn [target target_std] in *.
  unfold _get_obs in Hobs. cbn in Hobs. injection Hobs as <-.
  match goal with
  | E : get_info _ = Ok _ |- _ => unfold get_info in E; cbn in E
  end.
  rewrite Hes' in *.
  match goal with
  | E : bind _ _ = Ok _ |- _ => cbn in E; injection E as <-
  end.
  unfold gaze_off_target in Hoff. cbn in Hoff.
  assert (Hecc : 0 < get_distance (ext_target es') (ext_fixation es')).
  { apply get_distance_pos.
    destruct (ext_target es'), (ext_fixation es'). exact Hoff. }
  assert (Hstm_pos : 0 < stm_std).
  { rewrite Hstd. cbn [stimulus_noise_weight set_internal_state].
    apply Rmult_lt_0_compat; assumption. }
  destruct (posterior_std_lt_r stm (target s) Hstm_pos Hpos) as [Hgt Hlt].
  eexists. cbn [GT internal_state set_internal_state]. split; [reflexivity|].
  cbn [target_std reported_std o2 stimulus_noise_weight].
  repeat split; assumption.
Qed.

Lemma run_model_sharpens (actions : list (point R)) :
  forall (m m' : GazeModel R) (g g' : RandomState R)
         (outs : list (array3 R * R * bool * Info R)) (s : InternalState R),
    run_model m actions g = Ok (outs, m', g') ->
    internal_state (GT m) = Some s ->
    0 < target_std s ->
    0 < stimulus_noise_weight (GT m) ->
    Forall gaze_off_target outs ->
    decreasing (target_std s :: map reported_std outs) /\
    Forall (fun x : R => 0 < x) (map reported_std outs).
Proof.
  induction actions as [|a rest IH]; intros m m' g g' outs s H Hs Hpos Hsm Hoff.
  - cbn in H. injection H as <- <- <-. cbn.
    split; repeat constructor.
  - cbn [run_model] in H. monad_inv H.
    inversion Hoff as [|? ? Hoff1 Hoffs]; subst.
    match goal with
    | E : GazeModel_step _ _ _ = Ok _ |- _ =>
        eapply GazeModel_step_sharpens in E; [|eassumption..];
        destruct E as (s1 & Hs1 & Hstd1 & Hbounds & Hsm1)
    end.
    rewrite <- Hsm1 in Hsm. rewrite <- Hstd1 in Hbounds.
    match goal with
    | E : run_model _ _ _ = Ok _ |- _ =>
        destruct (IH _ _ _ _ _ _ E Hs1 (proj1 Hbounds) Hsm Hoffs)
          as (Hdec & Hall)
    end.
    cbn [map]. rewrite <- Hstd1. split.
    + constructor; [exact Hdec|]. constructor. exact (proj2 Hbounds).
    + constructor; [exact (proj1 Hbounds) | exact Hall].
Qed.

(** X15: the uncertainty goes down over an episode.  For a model whose
    noise weights and [target_loc_std] are not negative and whose
    [stimulus_noise_weight] is positive, [reset] and any steps return, the
    first observation reports the prior [0.1], and if no step lands the
    gaze exactly on the target (as the [info] of each step shows) then the
    deviation reported by each observation is positive and strictly below
    the one before. *)
Theorem uncertainty_goes_down_over_episode :
  forall (m : GazeModel R) (g : RandomState R) (actions : list (point R)),
    0 <= target_loc_std (TX m) ->
    0 <= oculamotor_noise_weight (GT m) ->
    0 < stimulus_noise_weight (GT m) ->
    exists (obs0 : array3 R) (m0 m' : GazeModel R) (g0 g' : RandomState R)
           (outs : list (array3 R * R * bool * Info R)),
      GazeModel_reset m g = Ok (obs0, m0, g0) /\
      run_model m0 actions g0 = Ok (outs, m', g') /\
      o2 obs0 = 1 / 10 /\
      (Forall gaze_off_target outs ->
       decreasing (o2 obs0 :: map reported_std outs) /\
       Forall (fun x : R => 0 < x) (map reported_std outs)).
Proof.
  intros m g actions Hstd Hom Hsm.
  destruct (@GazeModel_reset_returns m g Hstd)
    as (m0 & s0 & es0 & Hreset & Hs0 & Hes0 & Hom0 & Hsm0 & _).
  pose proof Hreset as Hn0. apply GazeModel_reset_Ok in Hn0 as (Hn0 & _).
  assert (Hstd0 : target_std s0 = 1 / 10).
  { pose proof Hreset as Hint. apply GazeModel_reset_internal in Hint.
    rewrite Hs0 in Hint. injection Hint as ->. reflexivity. }
  rewrite <- Hom0 in Hom. rewrite <- Hsm0 in Hsm.
  destruct (@run_model_returns actions m0 s0 es0 0%Z
              {| tape := tape g; pos := S (S (pos g)) |} Hs0 Hes0 Hn0 Hom
              (Rlt_le _ _ Hsm))
    as (outs & m' & g' & Hrun & _).
  do 6 eexists. split; [exact Hreset|]. split; [exact Hrun|].
  cbn [o2]. split; [reflexivity|].
  intros Hoff. rewrite <- Hstd0.
  eapply run_model_sharpens; try eassumption. rewrite Hstd0. lra.
Qed.


(** *** Instances *)

(** A stimulus of deviation [0.09] against the prior. *)
Lemma posterior_mean_between_witness :
  ~ (9 / 100 = 0 /\ 1 / 10 = 0) /\
  Rmin (3 / 10) 0
  <= c0 (fst (bayes_update stimulus_a (9 / 100) belief_a (1 / 10)))
  <= Rmax (3 / 10) 0.
Proof.
  assert (H : ~ (9 / 100 = 0 /\ 1 / 10 = 0)) by (intros [H _]; lra).
  split; [exact H|].
  exact (proj1 (posterior_mean_between stimulus_a belief_a H)).
Defined.

Lemma precisions_add_witness :
  0 < 9 / 100 /\ 0 < 1 / 10 /\
  / (snd (bayes_update stimulus_a (9 / 100) belief_a (1 / 10))) ^ 2
  = / (9 / 100) ^ 2 + / (1 / 10) ^ 2.
Proof.
  assert (H1 : 0 < 9 / 100) by lra.
  assert (H2 : 0 < 1 / 10) by lra.
  split; [exact H1|]. split; [exact H2|].
  exact (precisions_add stimulus_a belief_a H1 H2).
Defined.

(** A belief of deviation zero against a stimulus of deviation [0.09]. *)
Lemma certainty_wins_witness :
  0 <= 9 / 100 /\ 0 <= 0 /\ ~ (9 / 100 = 0 /\ 0 = 0) /\
  bayes_update stimulus_a (9 / 100) belief_a 0 = (belief_a, 0).
Proof.
  assert (H1 : 0 <= 9 / 100) by lra.
  assert (H2 : 0 <= 0) by lra.
  assert (H3 : ~ (9 / 100 = 0 /\ 0 = 0)) by (intros [H _]; lra).
  split; [exact H1|]. split; [exact H2|]. split; [exact H3|].
  exact (proj2 (proj2 (proj2 (certainty_wins stimulus_a belief_a H1 H2 H3)))
           eq_refl).
Defined.

(** Two stimuli after a reset, in the two orders. *)
Lemma fusion_order_irrelevant_witness :
  internal_state real_theory_ready = Some real_state_ready /\
  0 < target_std real_state_ready /\
  Forall (fun p : point R * R => 0 < snd p)
         [(stimulus_a, 9 / 100); (belief_a, 1 / 20)] /\
  Permutation [(stimulus_a, 9 / 100); (belief_a, 1 / 20)]
              [(belief_a, 1 / 20); (stimulus_a, 9 / 100)] /\
  exists (stds stds' : list R) (th' : GazeTheory R),
    update_many real_theory_ready [(stimulus_a, 9 / 100); (belief_a, 1 / 20)]
    = Ok (stds, th') /\
    update_many real_theory_ready [(belief_a, 1 / 20); (stimulus_a, 9 / 100)]
    = Ok (stds', th').
Proof.
  assert (H2 : 0 < target_std real_state_ready) by (cbn; lra).
  assert (H3 : Forall (fun p : point R * R => 0 < snd p)
                      [(stimulus_a, 9 / 100); (belief_a, 1 / 20)])
    by (repeat constructor; cbn; lra).
  assert (H4 : Permutation [(stimulus_a, 9 / 100); (belief_a, 1 / 20)]
                           [(belief_a, 1 / 20); (stimulus_a, 9 / 100)])
    by apply perm_swap.
  split; [reflexivity|]. split; [exact H2|]. split; [exact H3|].
  split; [exact H4|].
  exact (@fusion_order_irrelevant real_theory_ready real_state_ready _ _
           eq_refl H2 H3 H4).
Defined.



(** An episode of the model of the notebook with three actions. *)
Lemma gaze_and_target_stay_in_box_witness :
  0 <= target_loc_std (TX (GazeModel_init (T:=R))) /\
  0 <= oculamotor_noise_weight (GT (GazeModel_init (T:=R))) /\
  0 <= stimulus_noise_weight (GT (GazeModel_init (T:=R))) /\
  exists (obs0 : array3 R) (m0 m' : GazeModel R) (g0 g' : RandomState R)
         (outs : list (array3 R * R * bool * Info R)) (es' : ExternalState R),
    GazeModel_reset GazeModel_init rng_zeros = Ok (obs0, m0, g0) /\
    run_model m0 actions_R g0 = Ok (outs, m', g') /\
    external_state (TX m') = Some es' /\
    in_box (ext_fixation es').
Proof.
  assert (H1 : 0 <= target_loc_std (TX (GazeModel_init (T:=R)))) by (cbn; lra).
  assert (H2 : 0 <= oculamotor_noise_weight (GT (GazeModel_init (T:=R))))
    by (cbn; lra).
  assert (H3 : 0 <= stimulus_noise_weight (GT (GazeModel_init (T:=R))))
    by (cbn; lra).
  split; [exact H1|]. split; [exact H2|]. split; [exact H3|].
  destruct (@gaze_and_target_stay_in_box GazeModel_init rng_zeros actions_R
              H1 H2 H3)
    as (obs0 & m0 & m' & g0 & g' & outs & es' & Hreset & Hrun & Hes' & Hbox & _).
  exists obs0, m0, m', g0, g', outs, es'.
  split; [exact Hreset|]. split; [exact Hrun|].
  split; [exact Hes' | exact Hbox].
Defined.

(** The loop of the notebook with 501 rounds of fuel. *)
Lemma test_loop_witness :
  0 <= target_loc_std (TX (GazeModel_init (T:=R))) /\
  0 <= oculamotor_noise_weight (GT (GazeModel_init (T:=R))) /\
  0 <= stimulus_noise_weight (GT (GazeModel_init (T:=R))) /\
  (0 <= max_steps (GazeModel_init (T:=R)))%Z /\
  (max_steps (GazeModel_init (T:=R)) + 1 <= Z.of_nat 501)%Z /\
  exists (i : nat) (m' : GazeModel R) (g' : RandomState R),
    test_the_model 501 (fun _ : nat => corner) rng_zeros = Ok (Some i, m', g') /\
    (1 <= i <= 501)%nat.
Proof.
  assert (H1 : 0 <= target_loc_std (TX (GazeModel_init (T:=R)))) by (cbn; lra).
  assert (H2 : 0 <= oculamotor_noise_weight (GT (GazeModel_init (T:=R))))
    by (cbn; lra).
  assert (H3 : 0 <= stimulus_noise_weight (GT (GazeModel_init (T:=R))))
    by (cbn; lra).
  assert (H4 : (0 <= max_steps (GazeModel_init (T:=R)))%Z) by (cbn; lia).
  assert (H5 : (max_steps (GazeModel_init (T:=R)) + 1 <= Z.of_nat 501)%Z)
    by (cbn; lia).
  repeat (split; [assumption|]).
  destruct (@test_loop_ends_within_cap GazeModel_init rng_zeros
              (fun _ : nat => corner) 501%nat H1 H2 H3 H4 H5)
    as (obs0 & m0 & m' & g0 & g' & i & Hreset & Hloop & Hi & Hcap & _).
  exists i, m', g'. unfold test_the_model. rewrite Hreset. cbn [bind].
  split; [exact Hloop|]. cbn in Hcap. lia.
Defined.

Lemma uncertainty_goes_down_witness :
  0 <= target_loc_std (TX (GazeModel_init (T:=R))) /\
  0 <= oculamotor_noise_weight (GT (GazeModel_init (T:=R))) /\
  0 < stimulus_noise_weight (GT (GazeModel_init (T:=R))) /\
  exists (obs0 : array3 R) (m0 m' : GazeModel R) (g0 g' : RandomState R)
         (outs : list (array3 R * R * bool * Info R)),
    GazeModel_reset GazeModel_init rng_zeros = Ok (obs0, m0, g0) /\
    run_model m0 actions_R g0 = Ok (outs, m', g') /\
    o2 obs0 = 1 / 10.
Proof.
  assert (H1 : 0 <= target_loc_std (TX (GazeModel_init (T:=R)))) by (cbn; lra).
  assert (H2 : 0 <= oculamotor_noise_weight (GT (GazeModel_init (T:=R))))
    by (cbn; lra).
  assert (H3 : 0 < stimulus_noise_weight (GT (GazeModel_init (T:=R))))
    by (cbn; lra).
  split; [exact H1|]. split; [exact H2|]. split; [exact H3|].
  destruct (@uncertainty_goes_down_over_episode GazeModel_init rng_zeros
              actions_R H1 H2 H3)
    as (obs0 & m0 & m' & g0 & g' & outs & Hreset & Hrun & Hprior & _).
  exists obs0, m0, m', g0, g', outs. repeat split; assumption.
Defined.

End RealExtra.

(** ** More on the program, in binary64 *)

Module FloatExtra.

Import FloatDemo ExtraDemo.
Local Open Scope float_scope.


(** An episode of three steps: fourteen variates are drawn. *)
Lemma episode_consumes_draws_witness :
  exists (obs0 : array3 float) (m0 m' : GazeModel float)
         (g0 g' : RandomState float)
         (outs : list (array3 float * float * bool * Info float)),
    GazeModel_reset GazeModel_init (rng_of draws_inside) = Ok (obs0, m0, g0) /\
    run_model m0 actions_float g0 = Ok (outs, m', g') /\
    pos g' = 14%nat.
Proof.
  eassert (Hreset : GazeModel_reset GazeModel_init (rng_of draws_inside)
                    = Ok (_, _, _))
    by (vm_compute; reflexivity).
  lazymatch type of Hreset with
  | _ = Ok (_, ?m0, ?g0) =>
      eassert (Hrun : run_model m0 actions_float g0 = Ok (_, _, _))
        by (vm_compute; reflexivity)
  end.
  destruct (@episode_consumes_draws float _ _ _ _ _ _ _ _ _ _ Hreset Hrun)
    as (_ & Hpos & _).
  do 6 eexists. split; [exact Hreset|]. split; [exact Hrun | exact Hpos].
Defined.

(** The same episode: the target at the end is the target drawn. *)
Lemma target_fixed_witness :
  exists (obs0 : array3 float) (m0 m' : GazeModel float)
         (g0 g' : RandomState float)
         (outs : list (array3 float * float * bool * Info float))
         (es0 es' : ExternalState float),
    GazeModel_reset GazeModel_init (rng_of draws_inside) = Ok (obs0, m0, g0) /\
    run_model m0 actions_float g0 = Ok (outs, m', g') /\
    external_state (TX m0) = Some es0 /\
    external_state (TX m') = Some es' /\
    ext_target es' = ext_target es0.
Proof.
  eassert (Hreset : GazeModel_reset GazeModel_init (rng_of draws_inside)
                    = Ok (_, _, _))
    by (vm_compute; reflexivity).
  lazymatch type of Hreset with
  | _ = Ok (_, ?m0, ?g0) =>
      eassert (Hrun : run_model m0 actions_float g0 = Ok (_, _, _))
        by (vm_compute; reflexivity)
  end.
  destruct (@target_fixed_over_episode float _ _ _ _ _ _ _ _ _ _ Hreset Hrun)
    as (es0 & es' & Hes0 & Hes' & _ & Htg & _).
  do 8 eexists. split; [exact Hreset|]. split; [exact Hrun|].
  split; [exact Hes0|]. split; [exact Hes' | exact Htg].
Defined.

(** The same episode, then a new [reset] with other draws. *)
Lemma reset_forgets_witness :
  exists (obs0 : array3 float) (m0 m' : GazeModel float)
         (g0 g' : RandomState float)
         (outs : list (array3 float * float * bool * Info float)),
    GazeModel_reset GazeModel_init (rng_of draws_inside) = Ok (obs0, m0, g0) /\
    run_model m0 actions_float g0 = Ok (outs, m', g') /\
    GazeModel_reset m' (rng_of draws_edge)
    = GazeModel_reset GazeModel_init (rng_of draws_edge).
Proof.
  eassert (Hreset : GazeModel_reset GazeModel_init (rng_of draws_inside)
                    = Ok (_, _, _))
    by (vm_compute; reflexivity).
  lazymatch type of Hreset with
  | _ = Ok (_, ?m0, ?g0) =>
      eassert (Hrun : run_model m0 actions_float g0 = Ok (_, _, _))
        by (vm_compute; reflexivity)
  end.
  pose proof (@reset_forgets_episode float _ _ _ _ _ _ _ _ _ _ Hreset Hrun
                (rng_of draws_edge)) as Hagain.
  do 6 eexists. split; [exact Hreset|]. split; [exact Hrun | exact Hagain].
Defined.

(** A second step of the theory, after a first one moved the gaze. *)
Lemma motor_noise_witness :
  exists (obs0 : array3 float) (th0 th1 th2 : GazeTheory float)
         (ext1 ext2 : GazeTask float) (g1 g2 : RandomState float)
         (outs : list (array3 float * float * bool))
         (out : array3 float * float * bool) (es2 : ExternalState float),
    reset_internal_env GazeTheory_init es_inside = Ok (obs0, th0) /\
    run_theory th0 task_inside [action_far] (rng_of draws_inside)
    = Ok (outs, th1, ext1, g1) /\
    CognitivePOMDP_step th1 ext1 action_edge g1 = Ok (out, th2, ext2, g2) /\
    external_state ext2 = Some es2 /\
    ext_fixation es2
    = pclip (padd action_edge
               {| c0 := 0 + oculamotor_noise_weight GazeTheory_init
                            * get_distance corner action_edge
                            * tape g1 (pos g1);
                  c1 := 0 + oculamotor_noise_weight GazeTheory_init
                            * get_distance corner action_edge
                            * tape g1 (S (pos g1)) |})
            (-1) 1.
Proof.
  eassert (Hreset : reset_internal_env GazeTheory_init es_inside = Ok (_, _))
    by (vm_compute; reflexivity).
  lazymatch type of Hreset with
  | _ = Ok (_, ?th0) =>
      eassert (Hrun : run_theory th0 task_inside [action_far]
                        (rng_of draws_inside) = Ok (_, _, _, _))
        by (vm_compute; reflexivity)
  end.
  lazymatch type of Hrun with
  | _ = Ok (_, ?th1, ?ext1, ?g1) =>
      eassert (Hstep : CognitivePOMDP_step th1 ext1 action_edge g1
                       = Ok (_, _, _, _))
        by (vm_compute; reflexivity)
  end.
  destruct (@motor_noise_measured_from_corner float _
              _ _ _ _ _ _ _ _ _ _ _ _ _ _ _ _ Hreset Hrun Hstep)
    as (es2 & Hes2 & Hfix).
  do 11 eexists. split; [exact Hreset|]. split; [exact Hrun|].
  split; [exact Hstep|]. split; [exact Hes2 | exact Hfix].
Defined.

End FloatExtra.
